(** * backend-container: the front-end server of a notebook backend

    A shallow embedding of the request router ([server.ts]), the port
    addressed reverse proxy ([reverseProxy.ts]), the kernel socket bridge
    ([sockets.ts]), the Jupyter process manager ([jupyter.ts]) and the
    terminal bridge ([socketio_to_pty.ts]), with the path join of the
    http-proxy package that the reverse proxy calls, followed by the
    properties established about them.

    Conventions.
    - A JavaScript string is a [string]; its characters stand for code
      units in the range 0..255.
    - A JavaScript number that holds a count or a port is an [N] or a [Z];
      the embedding is exact below 2^53, which is where the properties
      below use it.
    - A handler that calls into Node or into a package returns the list of
      calls it made, in order ([Effect]s of its module); a handler that can
      raise returns a [Completion]. *)

From Stdlib Require Import Bool Ascii String List NArith ZArith Lia.
From Stdlib Require Import DecimalString.
Import ListNotations.

Local Open Scope string_scope.
Local Open Scope list_scope.

(** ** JavaScript values shared by the modules *)

Module Js.

(** How a function body ends: normally with a value, or by raising. *)
Inductive Completion (A : Type) : Type :=
| Normal (a : A)
| Throw (error : string).
Arguments Normal {A} a.
Arguments Throw {A} error.

(** [s.indexOf(p) === 0]: [p] occurs at the start of [s]. *)
Definition indexOf_is_0 (s p : string) : bool := String.prefix p s.

(** [s.split(sep)] for a separator of one character. *)
Fixpoint split (sep : ascii) (s : string) : list string :=
  match s with
  | EmptyString => [EmptyString]
  | String c s' =>
      if Ascii.eqb c sep then EmptyString :: split sep s'
      else match split sep s' with
           | [] => [String c EmptyString]
           | piece :: pieces => String c piece :: pieces
           end
  end.

(** [s.split(sep, limit)]: the array of [s.split(sep)] cut to its first
    [limit] entries; what follows them is not kept. *)
Definition split_limit (sep : ascii) (limit : nat) (s : string) : list string :=
  firstn limit (split sep s).

(** White space and line terminators of ECMAScript among the code units
    below 256: TAB, LF, VT, FF, CR, SP and NBSP. *)
Definition isWhiteSpace (c : ascii) : bool :=
  let n := N_of_ascii c in
  ((9 <=? n) && (n <=? 13) || (n =? 32) || (n =? 160))%N.

Fixpoint trimStart (s : string) : string :=
  match s with
  | EmptyString => EmptyString
  | String c s' => if isWhiteSpace c then trimStart s' else s
  end.

(** [trimEnd] keeps a character when it is not white space or when
    something is left after it. *)
Fixpoint trimEnd (s : string) : string :=
  match s with
  | EmptyString => EmptyString
  | String c s' =>
      match trimEnd s' with
      | EmptyString => if isWhiteSpace c then EmptyString else String c EmptyString
      | t => String c t
      end
  end.

Definition trim (s : string) : string := trimEnd (trimStart s).

(** [[0-9]] *)
Definition isDigit (c : ascii) : bool :=
  let n := N_of_ascii c in ((48 <=? n) && (n <=? 57))%N.

Definition digitValue (c : ascii) : N := (N_of_ascii c - 48)%N.

(** [Number(ds)] for a string of decimal digits, read left to right.  The
    value is exact; [Number] of JavaScript is a double and agrees with it
    below 2^53 only, so a property that states the value returned bounds
    it (the router's comparisons with 0 and with a port do not depend on
    the rounding). *)
Definition Number_from (acc : N) (ds : string) : N :=
  fold_left (fun a c => (10 * a + digitValue c)%N) (list_ascii_of_string ds) acc.

Definition Number (ds : string) : N := Number_from 0 ds.

(** ['' + n] for a non-negative integer, in plain decimal digits, as
    JavaScript prints an integer below 10^21; the properties that state a
    target bound the port. *)
Definition toString (n : N) : string := NilZero.string_of_uint (N.to_uint n).

End Js.

Import Js.

(** ** reverseProxy.ts *)

Module ReverseProxy.

(** The longest run of digits at the start of [s], and what follows it. *)
Fixpoint span_digits (s : string) : string * string :=
  match s with
  | EmptyString => (EmptyString, EmptyString)
  | String c s' =>
      if isDigit c
      then let '(ds, rest) := span_digits s' in (String c ds, rest)
      else (EmptyString, s)
  end.

(** [strip p s]: what follows [p] in [s] when [s] starts with [p]. *)
Fixpoint strip (p s : string) : option string :=
  match p, s with
  | EmptyString, _ => Some s
  | String a p', String b s' => if Ascii.eqb a b then strip p' s' else None
  | String _ _, EmptyString => None
  end.

(** A match of [regex] that starts at the first character of [s]: the
    literal [/_proxy/], then [([0-9]+)], then [($|\/)].  The result is
    the first group and the text after the whole match.  The digit group
    is greedy; giving a digit back never helps, for the character after a
    shorter group would be a digit, which is neither the end nor a slash. *)
Definition match_here (s : string) : option (string * string) :=
  match strip "/_proxy/" s with
  | None => None
  | Some t =>
      match span_digits t with
      | (EmptyString, _) => None
      | (ds, EmptyString) => Some (ds, EmptyString)
      | (ds, String c rest) => if Ascii.eqb c "/" then Some (ds, rest) else None
      end
  end.

(** [regex.exec(s)] for
    [const regex = new RegExp('\/_proxy\/([0-9]+)($|\/)')]: the leftmost
    match, as the text before it, its first group and the text after it. *)
Fixpoint regex_exec (s : string) : option (string * string * string) :=
  match match_here s with
  | Some (ds, after) => Some (EmptyString, ds, after)
  | None =>
      match s with
      | EmptyString => None
      | String c s' =>
          match regex_exec s' with
          | Some (before, ds, after) => Some (String c before, ds, after)
          | None => None
          end
      end
  end.

(** [getRequestPort(path)]; the empty path is falsy and gives 0. *)
Definition getRequestPort (path : string) : N :=
  match path with
  | EmptyString => 0%N
  | _ => match regex_exec path with
         | Some (_, ds, _) => Number ds
         | None => 0%N
         end
  end.

(** [url.replace(regex, '')]: the leftmost match is cut out. *)
Definition replace_regex (url : string) : string :=
  match regex_exec url with
  | Some (before, _, after) => before ++ after
  | None => url
  end.

(** The call [proxy.web(request, response, {target})], with the URL the
    request carries at that moment. *)
Record ProxyWeb : Type := { request_url : string; target : string }.

(** [handleRequest(request, response, port)] *)
Definition handleRequest (url : string) (port : N) : ProxyWeb :=
  {| request_url := replace_regex url;
     target := "http://localhost:" ++ toString port |}.

End ReverseProxy.

(** ** appSettings.ts: the settings the modules read *)

Module AppSettings.

Record t : Type := {
  serverPort : N;
  nextJupyterPort : N;
  (** 0 disables the kernel manager proxy port *)
  kernelManagerProxyPort : N;
  (** the empty string stands for localhost *)
  kernelManagerProxyHost : string;
  (** whether [run] registers the terminal bridge *)
  terminal : bool
}.

End AppSettings.

(** ** What a handler does with one HTTP request *)

Module Http.

Record ServerResponse : Type := {
  statusCode : N;
  body : string;
  finished : bool
}.

(** [response.statusCode = code; response.end()]: nothing is written
    before the response is ended. *)
Definition end_with (code : N) : ServerResponse :=
  {| statusCode := code; body := EmptyString; finished := true |}.

(** The proxy object of the Jupyter manager, made by
    [httpProxy.createProxyServer({target})]. *)
Record ProxyServer : Type := { proxy_host : string; proxy_port : N }.

Inductive Outcome : Type :=
| LeftToSocketIo
    (** the handler returns and touches neither request nor response *)
| Responded (response : ServerResponse)
    (** the server ends the response itself *)
| ReverseProxyWeb (call : ReverseProxy.ProxyWeb)
    (** [proxy.web] of reverseProxy.ts *)
| JupyterProxyWeb (proxy : ProxyServer) (url : string)
    (** [jupyterServer.proxy.web(request, response, null)] *).

End Http.

Import Http.

(** ** jupyter.ts *)

Module Jupyter.

Record ChildProcess : Type := { pid : N }.

Record JupyterServer : Type := {
  port : N;
  childProcess : option ChildProcess;
  proxy : option ProxyServer
}.

(** The module variable [let jupyterServer: JupyterServer = null]. *)
Definition State : Type := option JupyterServer.

Definition initial : State := None.

(** *** pipeOutput *)

Inductive LoggerCall : Type :=
| error (message : string)
| warn (message : string)
| info (message : string)
| debug (message : string).

Module LogLevels.
Definition Critical : string := "CRITICAL".
Definition Error : string := "ERROR".
Definition Warning : string := "WARNING".
Definition Info : string := "INFO".
Definition Debug : string := "DEBUG".
Definition NotSet : string := "NOTSET".
End LogLevels.

(** The chain of comparisons on [level]. *)
Definition log_at (level message : string) : LoggerCall :=
  if String.eqb level LogLevels.Critical || String.eqb level LogLevels.Error
  then error message
  else if String.eqb level LogLevels.Warning then warn message
  else if String.eqb level LogLevels.Info then info message
  else debug message.

(** The body of the loop over the lines of one chunk. *)
Definition pipe_line (line : string) : list LoggerCall :=
  if (String.length (trim line) =? 0)%nat then []
  else
    let parts := split_limit "|" 3 line in
    if negb (List.length parts =? 3)%nat then [warn line]
    else
      let level := nth 1 parts EmptyString in
      let message := nth 2 parts EmptyString in
      [log_at level message].

(** The ['data'] listener that [pipeOutput] installs on a stream: the
    calls made on the Jupyter logger for one chunk. *)
Definition pipeOutput_on_data (data : string) : list LoggerCall :=
  flat_map pipe_line (split "010" data).

(** *** The life of the server object *)

Inductive Effect : Type :=
| Spawn (port : N)
| Kill (process : ChildProcess) (signal : string)
| LogInfo (message : string)
| LogError (message : string).

(** The proxy target chosen in [createJupyterServer]; [addr] is the
    address found in the [--ip] flag of the Jupyter arguments, or
    localhost. *)
Definition proxy_for (settings : AppSettings.t) (addr : string) (port : N)
  : ProxyServer :=
  {| proxy_host :=
       if String.eqb (AppSettings.kernelManagerProxyHost settings) EmptyString
       then addr else AppSettings.kernelManagerProxyHost settings;
     proxy_port :=
       if (AppSettings.kernelManagerProxyPort settings =? 0)%N
       then port else AppSettings.kernelManagerProxyPort settings |}.

(** [createJupyterServer()]: the object [server] that its closures
    capture, once the child is spawned and the proxy is made.  The module
    variable is not assigned here. *)
Definition createJupyterServer (settings : AppSettings.t) (addr : string)
           (child : ChildProcess) : JupyterServer * list Effect :=
  let p := AppSettings.nextJupyterPort settings in
  ({| port := p;
      childProcess := Some child;
      proxy := Some (proxy_for settings addr p) |},
   [LogInfo "Launching Jupyter server at %d";
    LogInfo "Using jupyter server address %s";
    Spawn p;
    LogInfo "Jupyter process started with pid %d and args %j"]).

(** The first callback of [tcp.waitUntilUsedOnHost(...).then]. *)
Definition probe_succeeded (server : JupyterServer) (st : State)
  : State * list Effect :=
  (Some server, [LogInfo "Jupyter server started."]).

(** The second callback: the failure is logged, nothing is assigned. *)
Definition probe_failed (st : State) : State * list Effect :=
  (st, [LogError "Failed to start Jupyter server."]).

(** [exitHandler(code, signal)] *)
Definition exitHandler (st : State) : State * list Effect :=
  (None, [LogError "Jupyter process %d exited due to signal: %s"]).

(** [try { body } catch (e) { }]: whatever [body] raises is dropped. *)
Definition try_catch_nothing (body : Completion unit) : Completion unit :=
  match body with
  | Normal v => Normal v
  | Throw _ => Normal tt
  end.

(** [close()].  [jupyterServer.childProcess] is read before the [try]:
    with [jupyterServer] null the read raises a TypeError and the
    function is left there.  [kill_result] is how
    [jupyterProcess.kill('SIGHUP')] ends for the process at hand; with
    [childProcess] undefined the call itself raises a TypeError.  Both
    happen inside the [try]. *)
Definition close (kill_result : Completion unit) (st : State)
  : Completion unit * State * list Effect :=
  match st with
  | None => (Throw "TypeError", st, [])
  | Some server =>
      match childProcess server with
      | Some jupyterProcess =>
          (try_catch_nothing kill_result, None, [Kill jupyterProcess "SIGHUP"])
      | None =>
          (try_catch_nothing (Throw "TypeError"), None, [])
      end
  end.

(** [handleRequest(request, response)] *)
Definition handleRequest (st : State) (url : string) : Completion Outcome :=
  match st with
  | None => Normal (Responded (end_with 500))
  | Some server =>
      match proxy server with
      | Some p => Normal (JupyterProxyWeb p url)
      | None => Throw "TypeError"
      end
  end.

(** [handleSocket(request, socket, head)]: [Some] is the call
    [jupyterServer.proxy.ws], [None] the logged refusal. *)
Definition handleSocket (st : State) : Completion (option ProxyServer) * list Effect :=
  match st with
  | None => (Normal None, [LogError "Jupyter server is not running."])
  | Some server =>
      match proxy server with
      | Some p => (Normal (Some p), [])
      | None => (Throw "TypeError", [])
      end
  end.

(** What can happen to the manager after [init], one event at a time. *)
Inductive Event : Type :=
| ProbeSucceeded (server : JupyterServer)
| ProbeFailed
| ChildExit
| Close (kill_result : Completion unit).

Definition step (st : State) (e : Event) : State :=
  match e with
  | ProbeSucceeded server => fst (probe_succeeded server st)
  | ProbeFailed => fst (probe_failed st)
  | ChildExit => fst (exitHandler st)
  | Close k => snd (fst (close k st))
  end.

Definition run (events : list Event) (st : State) : State :=
  fold_left step events st.

Definition is_probe_success (e : Event) : bool :=
  match e with ProbeSucceeded _ => true | _ => false end.

(** *** The bind address of the Jupyter server *)

(** The double quote of the pattern. *)
Definition quote : ascii := "034".

(** The literal the pattern starts with: [--ip=] and a double quote. *)
Definition ip_literal : string := "--ip=" ++ String quote EmptyString.

(** The longest run of characters other than the double quote at the
    start of [s], and what follows it. *)
Fixpoint span_not_quote (s : string) : string * string :=
  match s with
  | EmptyString => (EmptyString, EmptyString)
  | String c s' =>
      if Ascii.eqb c quote then (EmptyString, s)
      else let '(v, rest) := span_not_quote s' in (String c v, rest)
  end.

(** A match of the pattern of [createJupyterServer] that starts at the
    first character of [s], as its group: the literal, one or more
    characters other than the double quote, and a double quote.  The group
    is greedy and takes the whole run; a shorter group would be followed by
    a character of the run, not by the closing quote. *)
Definition ip_match_here (s : string) : option string :=
  match ReverseProxy.strip ip_literal s with
  | None => None
  | Some t =>
      match span_not_quote t with
      | (EmptyString, _) => None
      | (_, EmptyString) => None
      | (v, String _ _) => Some v
      end
  end.

(** [flag.match(...)] with that pattern: the group of the leftmost match. *)
Fixpoint ip_match (flag : string) : option string :=
  match ip_match_here flag with
  | Some v => Some v
  | None =>
      match flag with
      | EmptyString => None
      | String _ flag' => ip_match flag'
      end
  end.

(** The loop of [createJupyterServer] over [appSettings.jupyterArgs] that
    sets [jupyterServerAddr]: the first flag that matches decides. *)
Fixpoint jupyterServerAddr (jupyterArgs : list string) : string :=
  match jupyterArgs with
  | [] => "localhost"
  | flag :: flags =>
      match ip_match flag with
      | Some addr => addr
      | None => jupyterServerAddr flags
      end
  end.

(** *** responseHandler *)

(** [proxyResponse.headers]: names in lower case, each with its value. *)
Definition Headers : Type := list (string * string).

(** [headers[name]]; [None] is undefined. *)
Fixpoint header (name : string) (headers : Headers) : option string :=
  match headers with
  | [] => None
  | (n, v) :: rest => if String.eqb n name then Some v else header name rest
  end.

(** [delete headers[name]] *)
Definition delete_header (name : string) (headers : Headers) : Headers :=
  filter (fun entry => negb (String.eqb (fst entry) name)) headers.

(** [responseHandler(proxyResponse, request, response)]: the headers of
    the proxied response after the call. *)
Definition responseHandler (headers : Headers) : Headers :=
  match header "access-control-allow-origin" headers with
  | Some _ => delete_header "access-control-allow-origin" headers
  | None => headers
  end.

End Jupyter.

(** ** sockets.ts: the kernel socket bridge *)

Module Sockets.

(** [isSocketIoPath(path)] *)
Definition isSocketIoPath (path : string) : bool :=
  indexOf_is_0 path "/socket.io/".

(** The outbound socket of a session, named by the URL it was opened on. *)
Record WebSocket : Type := { socketUrl : string }.

Record Session : Type := {
  id : N;
  url : string;
  webSocket : option WebSocket
}.

(** What a client can send with the ['data'] event. *)
Inductive Message : Type :=
| Binary (bytes : list ascii)            (** a [Buffer] *)
| Envelope (channel : string) (data : string)
| Undefined                              (** no argument, or null *).

(** A message of the upstream socket. *)
Inductive Frame : Type :=
| BinaryFrame (bytes : list ascii)
| TextFrame (text : string).

Inductive Effect : Type :=
| LogDebug (message : string)
| LogError (message : string)
| NewWebSocket (ws : WebSocket)
| WsSendBinary (bytes : list ascii)
| WsSendText (data : string)
| WsClose (ws : WebSocket)
| EmitOpen (url : string)                     (** [emit('open', {url})] *)
| EmitClose (url : string)                    (** [emit('close', {url})] *)
| EmitData (data : Frame)                     (** [emit('data', {data})] *)
| Disconnect                                  (** [session.socket.disconnect(true)] *).

Definition set_webSocket (session : Session) (ws : option WebSocket) : Session :=
  {| id := id session; url := url session; webSocket := ws |}.

Definition set_url (session : Session) (u : string) : Session :=
  {| id := id session; url := u; webSocket := webSocket session |}.

(** [socketHandler(socket)] makes the session of a new connection;
    [counter] is [sessionCounter] after its increment. *)
Definition new_session (counter : N) : Session :=
  {| id := counter; url := EmptyString; webSocket := None |}.

(** [closeWebSocket(session)] *)
Definition closeWebSocket (session : Session) : Session * list Effect :=
  match webSocket session with
  | Some ws => (set_webSocket session None, [WsClose ws])
  | None => (session, [])
  end.

Section Handlers.

Variable appSettings : AppSettings.t.

(** [url.parse(u).path], as the template string renders it. *)
Variable url_parse_path : string -> string.

(** Whether [new WebSocket(socketUrl)] raises for this socket URL. *)
Variable new_WebSocket_raises : string -> bool.

Definition start_port : N :=
  if (AppSettings.kernelManagerProxyPort appSettings =? 0)%N
  then AppSettings.nextJupyterPort appSettings
  else AppSettings.kernelManagerProxyPort appSettings.

Definition start_host : string :=
  if String.eqb (AppSettings.kernelManagerProxyHost appSettings) EmptyString
  then "localhost"
  else AppSettings.kernelManagerProxyHost appSettings.

(** The socket [createWebSocket(host, port, session)] returns. *)
Definition createWebSocket (session : Session) : WebSocket :=
  {| socketUrl :=
       "ws://" ++ start_host ++ ":" ++ toString start_port
               ++ url_parse_path (url session) |}.

Definition log_proxy_port : list Effect :=
  if (AppSettings.kernelManagerProxyPort appSettings =? 0)%N then []
  else [LogDebug "Using kernel manager proxy port %d"].

(** The ['start'] listener, with its [try] and [catch]. *)
Definition on_start (session : Session) (message_url : string)
  : Session * list Effect :=
  let session1 := set_url session message_url in
  let ws := createWebSocket session1 in
  let before :=
    LogDebug "Start in session %d with url %s" :: log_proxy_port
      ++ [LogDebug "Creating WebSocket to %s for session %d"] in
  if new_WebSocket_raises (socketUrl ws)
  then (session1,
        before ++ [LogError "Unable to create WebSocket connection to %s";
                   Disconnect])
  else (set_webSocket session1 (Some ws), before ++ [NewWebSocket ws]).

(** The ['stop'] listener. *)
Definition on_stop (session : Session) : Session * list Effect :=
  let '(session1, effects) := closeWebSocket session in
  (session1, LogDebug "Stop in session %d with url %s" :: effects).

(** The ['disconnect'] listener. *)
Definition on_disconnect (session : Session) : Session * list Effect :=
  let '(session1, effects) := closeWebSocket session in
  (session1, LogDebug "Socket disconnected for session %d reason: %s" :: effects).

(** The callback given to [send]: a failure is logged. *)
Definition send_callback (e : option string) : list Effect :=
  match e with
  | Some _ => [LogError "Failed to send message to websocket"]
  | None => []
  end.

(** The ['data'] listener.  [send_error] is what the socket passes to
    the callback of [send]; [send] itself is taken to return.  With a
    socket present and no message, reading [message.data] raises. *)
Definition on_data (session : Session) (message : Message)
           (send_error : option string)
  : Completion Session * list Effect :=
  match webSocket session with
  | Some _ =>
      match message with
      | Binary bytes =>
          (Normal session,
           LogDebug "Send binary data of length %d in session %d."
             :: WsSendBinary bytes :: send_callback send_error)
      | Envelope _ data =>
          (Normal session,
           LogDebug "Send data in session %d\n%s"
             :: WsSendText data :: send_callback send_error)
      | Undefined => (Throw "TypeError", [])
      end
  | None =>
      (Normal session, [LogError "Unable to send message; WebSocket is not open"])
  end.

(** The listeners [createWebSocket] puts on the socket [ws]. *)
Definition ws_on_open (ws : WebSocket) (session : Session)
  : Session * list Effect :=
  (set_webSocket session (Some ws), [EmitOpen (url session)]).

Definition ws_on_close (session : Session) : Session * list Effect :=
  (set_webSocket session None,
   [LogDebug "WebSocket [%d] closed"; EmitClose (url session)]).

Definition ws_on_message (session : Session) (data : Frame)
  : Session * list Effect :=
  (session,
   [LogDebug match data with
             | BinaryFrame _ => "WebSocket [%d] binary message length %d"
             | TextFrame _ => "WebSocket [%d] message\n%j"
             end;
    EmitData data]).

Definition ws_on_error (session : Session) (code : string)
  : Session * list Effect :=
  (session,
   LogError "WebSocket [%d] error\n%j"
     :: if String.eqb code "ECONNREFUSED" then [Disconnect] else []).

End Handlers.

(** An effect the client can observe. *)
Definition reaches_client (e : Effect) : bool :=
  match e with
  | EmitOpen _ | EmitClose _ | EmitData _ | Disconnect => true
  | _ => false
  end.

End Sockets.

(** ** socketio_to_pty.ts: the terminal bridge *)

Module SocketIoToPty.

Definition UNACKED_HIGH_WATER : Z := 20.
Definition UNACKED_LOW_WATER : Z := 2.

(** The fields of a [Session] that change; [socket] and [pty] are the
    targets of the effects. *)
Record Session : Type := {
  id : N;
  unackedCount : Z
}.

(** [new Session(socket, useBash)]; [counter] is [sessionCounter] before
    its increment. *)
Definition new_session (counter : N) : Session :=
  {| id := counter; unackedCount := 0 |}.

(** The envelope of the client as its type declares it: [data] a string,
    [cols] and [rows] numbers, each of them optional.  A parsed value of
    another shape is outside the embedding. *)
Record PtyMessage : Type := {
  data : option string;
  cols : option Z;
  rows : option Z
}.

(** How [JSON.parse] ends on a payload: a SyntaxError, the value null, or
    a value whose fields can be read. *)
Inductive Parsed : Type :=
| SyntaxError
| JsonNull
| JsonValue (message : PtyMessage).

Inductive Effect : Type :=
| LogDebug (message : string)
| PtyWrite (data : string)
| PtyResize (cols rows : Z)
| PtyPause
| PtyResume
| PtyKill
| EmitData (data : string)        (** [{data, pause: true}], with the acknowledgment callback *)
| EmitExit (exitCode : Z) (signal : option Z)
| Disconnect                      (** [socket.disconnect(true)] *).

(** [if (message.data)]: defined and not the empty string. *)
Definition write_of (message : PtyMessage) : list Effect :=
  match data message with
  | Some d => if String.eqb d EmptyString then [] else [PtyWrite d]
  | None => []
  end.

(** [if (message.cols && message.rows)]: both defined and not 0. *)
Definition resize_of (message : PtyMessage) : list Effect :=
  match cols message, rows message with
  | Some c, Some r => if (c =? 0)%Z || (r =? 0)%Z then [] else [PtyResize c r]
  | _, _ => []
  end.

Section Listeners.

(** [JSON.parse] *)
Variable JSON_parse : string -> Parsed.

(** The ['data'] listener of the client socket.  Nothing in it catches:
    a SyntaxError of [JSON.parse], or the TypeError of reading a field
    of null, leaves the listener. *)
Definition on_data (session : Session) (event_data : string)
  : Completion unit * list Effect :=
  let logged := LogDebug "Send data in session %d\n%s" in
  match JSON_parse event_data with
  | SyntaxError => (Throw "SyntaxError", [logged])
  | JsonNull => (Throw "TypeError", [logged])
  | JsonValue message =>
      (Normal tt, logged :: write_of message ++ resize_of message)
  end.

End Listeners.

(** The listener given to [pty.onData]. *)
Definition on_pty_data (session : Session) (chunk : string)
  : Session * list Effect :=
  let count := (unackedCount session + 1)%Z in
  ({| id := id session; unackedCount := count |},
   (if (UNACKED_HIGH_WATER <? count)%Z then [PtyPause] else [])
     ++ [EmitData chunk]).

(** The acknowledgment callback passed to [emit]. *)
Definition on_ack (session : Session) : Session * list Effect :=
  let count := Z.max 0 (unackedCount session - 1) in
  ({| id := id session; unackedCount := count |},
   if (count <? UNACKED_LOW_WATER)%Z then [PtyResume] else []).

(** The listener given to [pty.onExit]. *)
Definition on_pty_exit (exitCode : Z) (signal : option Z) : list Effect :=
  [EmitExit exitCode signal; Disconnect].

(** [close()] *)
Definition close : list Effect := [Disconnect; PtyKill].

(** The ['disconnect'] listener of the client socket. *)
Definition on_disconnect : list Effect :=
  LogDebug "Socket disconnected for session %d" :: close.

(** The flow of chunks and acknowledgments of one session. *)
Inductive Event : Type :=
| Chunk (data : string)
| Ack.

Definition step (session : Session) (e : Event) : Session * list Effect :=
  match e with
  | Chunk d => on_pty_data session d
  | Ack => on_ack session
  end.

(** The session after the events, and the effects of each event in turn. *)
Fixpoint run (events : list Event) (session : Session)
  : Session * list (list Effect) :=
  match events with
  | [] => (session, [])
  | e :: rest =>
      let '(session1, effects) := step session e in
      let '(final, trace) := run rest session1 in
      (final, effects :: trace)
  end.

Definition is_pause (e : Effect) : bool :=
  match e with PtyPause => true | _ => false end.

Definition is_resume (e : Effect) : bool :=
  match e with PtyResume => true | _ => false end.

(** *** The adapter *)

(** [new SocketIoToPty(path, server, useBash)] keeps [path]. *)
Record t : Type := { path : string }.

(** [isPathProxied(path)] *)
Definition isPathProxied (handler : t) (p : string) : bool :=
  indexOf_is_0 p (path handler ++ "/").

End SocketIoToPty.

(** ** server.ts: the request router *)

Module Server.

(** The part of an [http.IncomingMessage] the router reads. *)
Record IncomingMessage : Type := {
  url : string;
  (** [request.socket.localPort] *)
  localPort : N
}.

(** [handleRequest(request, response, requestPath)] *)
Definition handleRequest (jupyter : Jupyter.State) (request : IncomingMessage)
           (requestPath : string) : Completion Outcome :=
  if indexOf_is_0 requestPath "/api"
     || indexOf_is_0 requestPath "/nbextensions"
     || indexOf_is_0 requestPath "/files"
     || indexOf_is_0 requestPath "/static"
  then Jupyter.handleRequest jupyter (url request)
  else Normal (Responded (end_with 404)).

(** The array [socketIoHandlers] once [run(settings)] has returned. *)
Definition socketIoHandlers (settings : AppSettings.t) : list SocketIoToPty.t :=
  if AppSettings.terminal settings
  then [ {| SocketIoToPty.path := "/tty" |} ]
  else [].

Section Router.

(** [url.parse(u, true).pathname || ''] *)
Variable pathname : string -> string.

(** [uncheckedRequestHandler(request, response)]; the call of
    [logging.logRequest] writes a log line and is left out. *)
Definition uncheckedRequestHandler (handlers : list SocketIoToPty.t)
           (jupyter : Jupyter.State) (request : IncomingMessage)
  : Completion Outcome :=
  let urlpath := pathname (url request) in
  if existsb (fun handler => SocketIoToPty.isPathProxied handler urlpath) handlers
  then Normal LeftToSocketIo
  else
    let proxyPort := ReverseProxy.getRequestPort urlpath in
    if Sockets.isSocketIoPath urlpath then Normal LeftToSocketIo
    else if negb (proxyPort =? 0)%N && negb (proxyPort =? localPort request)%N
    then Normal (ReverseProxyWeb (ReverseProxy.handleRequest (url request) proxyPort))
    else handleRequest jupyter request urlpath.

(** [requestHandler(request, response)]: what the routing raises is logged
    and goes no further; [None] is that case.  The routing starts from the
    pathname: what [url.parse], [logging.logRequest] or a proxy call may
    raise before or after it is outside this function. *)
Definition requestHandler (handlers : list SocketIoToPty.t)
           (jupyter : Jupyter.State) (request : IncomingMessage)
  : option Outcome :=
  match uncheckedRequestHandler handlers jupyter request with
  | Normal outcome => Some outcome
  | Throw _ => None
  end.

End Router.

(** [socketHandler(request, socket, head)], the listener of ['upgrade']. *)
Definition socketHandler (jupyter : Jupyter.State)
  : Completion (option ProxyServer) * list Jupyter.Effect :=
  Jupyter.handleSocket jupyter.

End Server.

(** ** http-proxy: the path of the request it sends

    [proxy.web(request, response, {target})] of reverseProxy.ts is a call
    into the package http-proxy.  For the request it sends to the target,
    the package sets [outgoing.path] to
    [urlJoin(targetPath, url.parse(req.url).path || '')], where
    [targetPath] is the path of the parsed target, [/] for a target
    [http://localhost:<port>]. *)

Module HttpProxy.

(** [s.replace(/\/+/g, '/')]: every run of slashes becomes one slash. *)
Fixpoint collapse_slashes (s : string) : string :=
  match s with
  | EmptyString => EmptyString
  | String c s' =>
      if Ascii.eqb c "/"
      then match s' with
           | EmptyString => String c EmptyString
           | String c' _ =>
               if Ascii.eqb c' "/" then collapse_slashes s'
               else String c (collapse_slashes s')
           end
      else String c (collapse_slashes s')
  end.

(** [s.replace(pattern, replacement)] for a pattern that is a string: the
    first occurrence is replaced. *)
Fixpoint replace_first (pattern replacement s : string) : string :=
  match ReverseProxy.strip pattern s with
  | Some rest => replacement ++ rest
  | None =>
      match s with
      | EmptyString => EmptyString
      | String c s' => String c (replace_first pattern replacement s')
      end
  end.

(** [pieces.join(sep)] *)
Fixpoint join (sep : string) (pieces : list string) : string :=
  match pieces with
  | [] => EmptyString
  | piece :: rest =>
      match rest with
      | [] => piece
      | _ :: _ => piece ++ sep ++ join sep rest
      end
  end.

(** [common.urlJoin(first, last)]: [last] is cut at its question marks,
    the empty arguments are left out, the others are joined with a slash,
    runs of slashes are collapsed and the slashes of a scheme restored;
    what was behind a question mark is put back. *)
Definition urlJoin (first last : string) : string :=
  match split "?" last with
  | [] => EmptyString
  | path :: lastSegs =>
      let args := filter (fun arg => negb (String.eqb arg EmptyString)) [first; path] in
      join "?"
           (replace_first "https:/" "https://"
              (replace_first "http:/" "http://"
                 (collapse_slashes (join "/" args)))
              :: lastSegs)
  end.

Section Outgoing.

(** [url.parse(u).path || ''] *)
Variable url_path : string -> string.

(** [outgoing.path] for a request with the URL [request_url] and a target
    [http://localhost:<port>]. *)
Definition outgoing_path (request_url : string) : string :=
  urlJoin "/" (url_path request_url).

End Outgoing.

End HttpProxy.

(** ** Vocabulary of the properties *)

(** A string of decimal digits. *)
Fixpoint allDigits (s : string) : bool :=
  match s with
  | EmptyString => true
  | String c s' => isDigit c && allDigits s'
  end.

(** [path] holds a segment [/_proxy/<digits>] that ends the path or is
    followed by a slash, and the digits denote [n]. *)
Definition has_proxy_segment (path : string) (n : N) : Prop :=
  exists before ds after,
    path = (before ++ "/_proxy/" ++ ds ++ after)%string
    /\ ds <> EmptyString /\ allDigits ds = true
    /\ (after = EmptyString \/ exists rest, after = ("/" ++ rest)%string)
    /\ Number ds = n.

(** The paths that [Server.handleRequest] hands to the Jupyter manager. *)
Definition jupyter_path (requestPath : string) : bool :=
  indexOf_is_0 requestPath "/api"
  || indexOf_is_0 requestPath "/nbextensions"
  || indexOf_is_0 requestPath "/files"
  || indexOf_is_0 requestPath "/static".

(** The pathname of a request target in origin form that holds nothing
    [url.parse] would escape: the text before the first [?] or [#]. *)
Fixpoint origin_pathname (u : string) : string :=
  match u with
  | EmptyString => EmptyString
  | String c u' =>
      if Ascii.eqb c "?" || Ascii.eqb c "#" then EmptyString
      else String c (origin_pathname u')
  end.

(** [s] holds no two slashes in a row. *)
Fixpoint no_slash_pair (s : string) : bool :=
  match s with
  | EmptyString => true
  | String c s' =>
      match s' with
      | EmptyString => true
      | String c' _ =>
          negb (Ascii.eqb c "/" && Ascii.eqb c' "/") && no_slash_pair s'
      end
  end.

(** What follows the first slash of [s], with that slash; [/] when [s]
    holds no slash. *)
Fixpoint from_first_slash (s : string) : string :=
  match s with
  | EmptyString => "/"
  | String c s' => if Ascii.eqb c "/" then s else from_first_slash s'
  end.

(** The path and query of a request target that holds no fragment and
    nothing [url.parse] would escape: for a target in absolute form,
    [http://] and an authority, what follows the authority; a target in
    another form as it is. *)
Definition target_path (u : string) : string :=
  match ReverseProxy.strip "http://" u with
  | Some behind => from_first_slash behind
  | None => u
  end.

(** The pathname of such a request target. *)
Definition target_pathname (u : string) : string :=
  origin_pathname (target_path u).

(** The path [/_proxy/<ds>/<rest>]. *)
Definition proxy_path (ds rest : string) : string :=
  "/_proxy/" ++ ds ++ "/" ++ rest.

(** Settings of a server that listens on 8081 with the terminal bridge on,
    and a Jupyter server object as [createJupyterServer] makes it. *)
Definition sample_settings : AppSettings.t :=
  {| AppSettings.serverPort := 8081;
     AppSettings.nextJupyterPort := 9000;
     AppSettings.kernelManagerProxyPort := 0;
     AppSettings.kernelManagerProxyHost := EmptyString;
     AppSettings.terminal := true |}.

Definition sample_server : Jupyter.JupyterServer :=
  fst (Jupyter.createJupyterServer sample_settings "localhost" {| Jupyter.pid := 4242 |}).

(** No successful probe among the events. *)
Definition no_probe_success (events : list Jupyter.Event) : bool :=
  forallb (fun e => negb (Jupyter.is_probe_success e)) events.

(** The manager was never made ready, or the child has exited and no probe
    has succeeded since. *)
Definition not_ready (events : list Jupyter.Event) : Prop :=
  no_probe_success events = true
  \/ exists before after,
       events = before ++ Jupyter.ChildExit :: after
       /\ no_probe_success after = true.

(** The fields of a line, all of them. *)
Definition fields (line : string) : list string := split "|" line.

Definition blank (line : string) : bool := (String.length (trim line) =? 0)%nat.

(** [s] holds no character [c]. *)
Fixpoint no_char (c : ascii) (s : string) : bool :=
  match s with
  | EmptyString => true
  | String x s' => negb (Ascii.eqb x c) && no_char c s'
  end.

(** [path] holds a segment [/_proxy/<ds>] right after [before], with
    [after] behind it: the end of the path or a slash and more. *)
Definition segment_at (path before ds after : string) : Prop :=
  path = (before ++ "/_proxy/" ++ ds ++ after)%string
  /\ ds <> EmptyString /\ allDigits ds = true
  /\ (after = EmptyString \/ exists rest, after = ("/" ++ rest)%string).

(** Every character of [s] is white space. *)
Fixpoint allWhiteSpace (s : string) : bool :=
  match s with
  | EmptyString => true
  | String c s' => isWhiteSpace c && allWhiteSpace s'
  end.

(** The call on the logger that a line which is not blank gives: at the
    level of its second field with its third field when [split] with the
    limit 3 gives three pieces, a warning with the whole line otherwise. *)
Definition line_call (line : string) : Jupyter.LoggerCall :=
  let parts := split_limit "|" 3 line in
  if (List.length parts =? 3)%nat
  then Jupyter.log_at (nth 1 parts EmptyString) (nth 2 parts EmptyString)
  else Jupyter.warn line.

(** A log record as the Jupyter configuration formats it. *)
Definition record_line (stamp level message : string) : string :=
  stamp ++ "|" ++ level ++ "|" ++ message.

(** The flag [--ip=] with [addr] between double quotes. *)
Definition ip_flag (addr : string) : string :=
  Jupyter.ip_literal ++ addr ++ String Jupyter.quote EmptyString.

(** The chunks and the acknowledgments among the events of a terminal
    session. *)
Definition chunks (events : list SocketIoToPty.Event) : Z :=
  Z.of_nat (List.length
              (filter (fun e => match e with SocketIoToPty.Chunk _ => true | _ => false end)
                      events)).

Definition acks (events : list SocketIoToPty.Event) : Z :=
  Z.of_nat (List.length
              (filter (fun e => match e with SocketIoToPty.Ack => true | _ => false end)
                      events)).

(** No acknowledgment comes without a chunk to acknowledge, [credit]
    chunks being unacknowledged at the start. *)
Fixpoint balanced (events : list SocketIoToPty.Event) (credit : nat) : bool :=
  match events with
  | [] => true
  | SocketIoToPty.Chunk _ :: rest => balanced rest (S credit)
  | SocketIoToPty.Ack :: rest =>
      match credit with
      | O => false
      | S c => balanced rest c
      end
  end.

Definition is_ws_close (e : Sockets.Effect) : bool :=
  match e with Sockets.WsClose _ => true | _ => false end.

(** ** The reverse proxy *)

Section ReverseProxyFacts.

Import ReverseProxy.

Lemma span_digits_slash (ds rest : string) :
  allDigits ds = true ->
  span_digits (ds ++ String "/" rest)%string = (ds, String "/" rest).
Proof.
  induction ds as [|c ds IH]; simpl; intros H.
  - reflexivity.
  - apply andb_prop in H as [Hc Hds].
    rewrite Hc, (IH Hds). reflexivity.
Qed.

Lemma match_here_marker (ds rest : string) :
  ds <> EmptyString -> allDigits ds = true ->
  match_here (proxy_path ds rest) = Some (ds, rest).
Proof.
  intros Hne Hds. unfold match_here, proxy_path. simpl.
  rewrite (span_digits_slash ds rest Hds).
  destruct ds as [|c ds]; [contradiction|]. reflexivity.
Qed.

Lemma regex_exec_marker (ds rest : string) :
  ds <> EmptyString -> allDigits ds = true ->
  regex_exec (proxy_path ds rest) = Some (EmptyString, ds, rest).
Proof.
  intros Hne Hds.
  pose proof (match_here_marker ds rest Hne Hds) as Hm.
  unfold proxy_path in *. simpl in *. rewrite Hm. reflexivity.
Qed.

Lemma getRequestPort_marker (ds rest : string) :
  ds <> EmptyString -> allDigits ds = true ->
  getRequestPort (proxy_path ds rest) = Number ds.
Proof.
  intros Hne Hds. unfold getRequestPort.
  rewrite (regex_exec_marker ds rest Hne Hds). reflexivity.
Qed.

Lemma replace_regex_marker (ds rest : string) :
  ds <> EmptyString -> allDigits ds = true ->
  replace_regex (proxy_path ds rest) = rest.
Proof.
  intros Hne Hds. unfold replace_regex.
  rewrite (regex_exec_marker ds rest Hne Hds). reflexivity.
Qed.

Lemma strip_sound (p s t : string) :
  strip p s = Some t -> s = (p ++ t)%string.
Proof.
  revert s. induction p as [|a p IH]; intros s H.
  - simpl in H. injection H as ->. reflexivity.
  - destruct s as [|b s]; simpl in H; [discriminate|].
    destruct (Ascii.eqb_spec a b) as [->|]; [|discriminate].
    simpl. f_equal. apply IH, H.
Qed.

Lemma span_digits_sound (t ds rest : string) :
  span_digits t = (ds, rest) -> t = (ds ++ rest)%string /\ allDigits ds = true.
Proof.
  revert ds. induction t as [|c t IH]; simpl; intros ds H.
  - injection H as <- <-. split; reflexivity.
  - destruct (isDigit c) eqn:Hc.
    + destruct (span_digits t) as [ds' rest'].
      injection H as <- <-.
      destruct (IH ds' eq_refl) as [-> Hds].
      split; [reflexivity | simpl; rewrite Hc; exact Hds].
    + injection H as <- <-. split; reflexivity.
Qed.

Lemma match_here_sound (s ds after : string) :
  match_here s = Some (ds, after) ->
  ds <> EmptyString /\ allDigits ds = true
  /\ (s = ("/_proxy/" ++ ds)%string /\ after = EmptyString
      \/ s = ("/_proxy/" ++ ds ++ "/" ++ after)%string).
Proof.
  unfold match_here. intros H.
  destruct (strip "/_proxy/" s) as [t|] eqn:Hstrip; [|discriminate].
  apply strip_sound in Hstrip. subst s.
  destruct (span_digits t) as [ds' rest] eqn:Hspan.
  apply span_digits_sound in Hspan as [-> Hds].
  destruct ds' as [|d ds']; [discriminate|].
  destruct rest as [|c rest].
  - injection H as <- <-.
    split; [discriminate|]. split; [exact Hds|].
    left. split; [|reflexivity]. simpl. repeat f_equal.
    clear. induction ds' as [|x ds' IH]; simpl; [reflexivity | f_equal; exact IH].
  - destruct (Ascii.eqb_spec c "/") as [->|]; [|discriminate].
    injection H as <- <-.
    split; [discriminate|]. split; [exact Hds|].
    right. reflexivity.
Qed.

(** What [regex_exec] finds is an occurrence of the pattern: the text
    before it, the literal, a group of one or more digits, and then the end
    of the string or a slash. *)
Lemma regex_exec_sound (s before ds after : string) :
  regex_exec s = Some (before, ds, after) ->
  ds <> EmptyString /\ allDigits ds = true
  /\ (s = (before ++ "/_proxy/" ++ ds)%string /\ after = EmptyString
      \/ s = (before ++ "/_proxy/" ++ ds ++ "/" ++ after)%string).
Proof.
  revert before. induction s as [|c s IH]; intros before H.
  - discriminate.
  - simpl in H.
    destruct (match_here (String c s)) as [[ds' after']|] eqn:Hm.
    + injection H as <- <- <-. apply match_here_sound, Hm.
    + destruct (regex_exec s) as [[[before' ds'] after']|]; [|discriminate].
      injection H as <- <- <-.
      destruct (IH before' eq_refl) as (Hne & Hds & [[-> ->] | ->]).
      * split; [exact Hne|]. split; [exact Hds|]. left. split; reflexivity.
      * split; [exact Hne|]. split; [exact Hds|]. right. reflexivity.
Qed.

(** X1.  A port other than 0 and within the range of ports that
    [getRequestPort] returns is the number of a segment [/_proxy/<digits>]
    of the path. *)
Lemma getRequestPort_names_segment (path : string) :
  (getRequestPort path <= 65535)%N ->
  getRequestPort path <> 0%N -> has_proxy_segment path (getRequestPort path).
Proof.
  unfold getRequestPort. intros _ H.
  destruct path as [|c path]; [contradiction|].
  destruct (regex_exec (String c path)) as [[[before ds] after]|] eqn:Hexec;
    [|contradiction].
  destruct (regex_exec_sound _ _ _ _ Hexec) as (Hne & Hds & [[Hs ->] | Hs]).
  - exists before, ds, EmptyString. rewrite Hs.
    repeat split; try assumption.
    + f_equal. f_equal. clear. induction ds as [|x ds IH]; simpl;
        [reflexivity | f_equal; exact IH].
    + left. reflexivity.
  - exists before, ds, ("/" ++ after)%string. rewrite Hs.
    repeat split; try assumption.
    right. exists after. reflexivity.
Qed.

(** A path with no match has no port, like a path that names port 0. *)
Lemma getRequestPort_no_match (path : string) :
  regex_exec path = None -> getRequestPort path = 0%N.
Proof.
  intros H. unfold getRequestPort. rewrite H. destruct path; reflexivity.
Qed.

End ReverseProxyFacts.

(** ** The router *)

Section RouterFacts.

Import Server.

Variable pathname : string -> string.

(** The terminal bridge does not claim a path under [/_proxy/]. *)
Lemma run_handlers_skip_proxy_path (settings : AppSettings.t) (ds rest : string) :
  existsb (fun handler => SocketIoToPty.isPathProxied handler (proxy_path ds rest))
          (socketIoHandlers settings) = false.
Proof.
  unfold socketIoHandlers. destruct (AppSettings.terminal settings); reflexivity.
Qed.

Lemma proxy_path_not_socketio (ds rest : string) :
  Sockets.isSocketIoPath (proxy_path ds rest) = false.
Proof. reflexivity. Qed.

Lemma proxy_path_not_jupyter (ds rest : string) :
  jupyter_path (proxy_path ds rest) = false.
Proof. reflexivity. Qed.

Lemma handleRequest_cases (jupyter : Jupyter.State) (request : IncomingMessage)
      (requestPath : string) :
  handleRequest jupyter request requestPath =
  if jupyter_path requestPath
  then Jupyter.handleRequest jupyter (url request)
  else Normal (Responded (end_with 404)).
Proof. reflexivity. Qed.

(** The default handler never calls the reverse proxy. *)
Lemma handleRequest_not_reverse_proxy (jupyter : Jupyter.State)
      (request : IncomingMessage) (requestPath : string) (call : ReverseProxy.ProxyWeb) :
  handleRequest jupyter request requestPath <> Normal (ReverseProxyWeb call).
Proof.
  rewrite handleRequest_cases. unfold Jupyter.handleRequest.
  destruct (jupyter_path requestPath); [|discriminate].
  destruct jupyter as [server|]; [|discriminate].
  destruct (Jupyter.proxy server); discriminate.
Qed.

(** When the port test of the router fails, the request is left to
    socket.io or goes to the default handler. *)
Lemma router_without_port (handlers : list SocketIoToPty.t)
      (jupyter : Jupyter.State) (request : IncomingMessage) :
  ReverseProxy.getRequestPort (pathname (url request)) = 0%N
  \/ ReverseProxy.getRequestPort (pathname (url request)) = localPort request ->
  uncheckedRequestHandler pathname handlers jupyter request =
  if existsb (fun handler =>
                SocketIoToPty.isPathProxied handler (pathname (url request))) handlers
     || Sockets.isSocketIoPath (pathname (url request))
  then Normal LeftToSocketIo
  else handleRequest jupyter request (pathname (url request)).
Proof.
  intros Hport. unfold uncheckedRequestHandler.
  destruct (existsb _ handlers); [reflexivity|].
  destruct (Sockets.isSocketIoPath _); [reflexivity|]. simpl.
  destruct Hport as [H|H]; rewrite H.
  - reflexivity.
  - rewrite N.eqb_refl, andb_false_r. reflexivity.
Qed.

End RouterFacts.

(** C1, as amended.  A request whose path no registered bridge claims, which
    is not under the socket.io prefix, and whose reverse-proxy port is 0 or
    the listening port, goes to the default handler of the router: it is
    handed to the Jupyter manager when the path starts with [/api],
    [/nbextensions], [/files] or [/static], and is answered 404 with an
    empty body otherwise. *)
Theorem router_default_dispatch
        (pathname : string -> string) (handlers : list SocketIoToPty.t)
        (jupyter : Jupyter.State) (request : Server.IncomingMessage) :
  existsb (fun handler =>
             SocketIoToPty.isPathProxied handler (pathname (Server.url request)))
          handlers = false ->
  Sockets.isSocketIoPath (pathname (Server.url request)) = false ->
  ReverseProxy.getRequestPort (pathname (Server.url request)) = 0%N
  \/ ReverseProxy.getRequestPort (pathname (Server.url request))
     = Server.localPort request ->
  Server.uncheckedRequestHandler pathname handlers jupyter request =
  if jupyter_path (pathname (Server.url request))
  then Jupyter.handleRequest jupyter (Server.url request)
  else Normal (Responded (end_with 404)).
Proof.
  intros Hbridge Hio Hport.
  rewrite (router_without_port pathname handlers jupyter request Hport).
  rewrite Hbridge, Hio. simpl. apply handleRequest_cases.
Qed.

Lemma router_default_dispatch_witness :
  Server.uncheckedRequestHandler
    origin_pathname (Server.socketIoHandlers sample_settings) (Some sample_server)
    {| Server.url := "/api/contents?type=directory"; Server.localPort := 8081 |}
  = Normal (JupyterProxyWeb {| proxy_host := "localhost"; proxy_port := 9000 |}
                            "/api/contents?type=directory").
Proof.
  rewrite (router_default_dispatch
             origin_pathname (Server.socketIoHandlers sample_settings)
             (Some sample_server)
             {| Server.url := "/api/contents?type=directory";
                Server.localPort := 8081 |});
    [reflexivity | reflexivity | reflexivity | left; reflexivity].
Defined.

(** C1 as stated fails: with the backend ready, [/foo] is claimed by
    nothing and names no port, and the router answers 404 instead of
    handing it to the Jupyter manager. *)
Lemma router_default_is_not_always_jupyter :
  existsb (fun handler => SocketIoToPty.isPathProxied handler (origin_pathname "/foo"))
          (Server.socketIoHandlers sample_settings) = false
  /\ Sockets.isSocketIoPath (origin_pathname "/foo") = false
  /\ ReverseProxy.getRequestPort (origin_pathname "/foo") = 0%N
  /\ Server.uncheckedRequestHandler
       origin_pathname (Server.socketIoHandlers sample_settings) (Some sample_server)
       {| Server.url := "/foo"; Server.localPort := 8081 |}
     = Normal (Responded {| statusCode := 404; body := EmptyString; finished := true |})
  /\ Jupyter.handleRequest (Some sample_server) "/foo"
     = Normal (JupyterProxyWeb {| proxy_host := "localhost"; proxy_port := 9000 |} "/foo").
Proof. repeat split. Qed.

(** C3, as amended.  When [getRequestPort] of the path, the number of its
    leftmost [/_proxy/<digits>] segment, is the listening port, the router
    does not call the reverse proxy: a path that a registered bridge or the
    socket.io prefix claims is left to socket.io, and every other path goes
    to the default handler. *)
Theorem self_port_is_not_reverse_proxied
        (pathname : string -> string) (handlers : list SocketIoToPty.t)
        (jupyter : Jupyter.State) (request : Server.IncomingMessage) :
  ReverseProxy.getRequestPort (pathname (Server.url request))
  = Server.localPort request ->
  Server.uncheckedRequestHandler pathname handlers jupyter request
  = (if existsb (fun handler =>
                   SocketIoToPty.isPathProxied handler (pathname (Server.url request)))
                handlers
        || Sockets.isSocketIoPath (pathname (Server.url request))
     then Normal LeftToSocketIo
     else Server.handleRequest jupyter request (pathname (Server.url request)))
  /\ forall call,
      Server.uncheckedRequestHandler pathname handlers jupyter request
      <> Normal (ReverseProxyWeb call).
Proof.
  intros Hself.
  pose proof (router_without_port pathname handlers jupyter request
                                  (or_intror Hself)) as Hroute.
  split; [exact Hroute|].
  intros call. rewrite Hroute.
  destruct (existsb _ handlers || Sockets.isSocketIoPath _).
  - discriminate.
  - apply handleRequest_not_reverse_proxy.
Qed.

Lemma self_port_is_not_reverse_proxied_witness :
  Server.uncheckedRequestHandler
    origin_pathname (Server.socketIoHandlers sample_settings) (Some sample_server)
    {| Server.url := "/_proxy/8081/api/x"; Server.localPort := 8081 |}
  = Server.handleRequest
      (Some sample_server)
      {| Server.url := "/_proxy/8081/api/x"; Server.localPort := 8081 |}
      "/_proxy/8081/api/x".
Proof.
  exact (proj1 (self_port_is_not_reverse_proxied
                  origin_pathname (Server.socketIoHandlers sample_settings)
                  (Some sample_server)
                  {| Server.url := "/_proxy/8081/api/x"; Server.localPort := 8081 |}
                  eq_refl)).
Defined.

(** C3 as stated fails: the path [/_proxy/80/_proxy/8081/x] holds a segment
    that names the listening port 8081, and the router forwards the request
    through the reverse proxy, to port 80 of the leftmost segment. *)
Lemma later_self_port_segment_is_reverse_proxied :
  has_proxy_segment "/_proxy/80/_proxy/8081/x" 8081
  /\ Server.uncheckedRequestHandler
       origin_pathname (Server.socketIoHandlers sample_settings) (Some sample_server)
       {| Server.url := "/_proxy/80/_proxy/8081/x"; Server.localPort := 8081 |}
     = Normal (ReverseProxyWeb
                 {| ReverseProxy.request_url := "_proxy/8081/x";
                    ReverseProxy.target := "http://localhost:80" |}).
Proof.
  split; [|reflexivity].
  exists "/_proxy/80", "8081", "/x".
  repeat split; try discriminate.
  right. exists "x". reflexivity.
Qed.

(** The other way in which C3 as stated fails: a path under the socket.io
    prefix that holds a segment naming the listening port is left to
    socket.io; it does not reach the default handler. *)
Lemma socketio_path_with_self_port_is_left_to_socketio :
  has_proxy_segment "/socket.io/_proxy/8081/x" 8081
  /\ Server.uncheckedRequestHandler
       origin_pathname (Server.socketIoHandlers sample_settings) (Some sample_server)
       {| Server.url := "/socket.io/_proxy/8081/x"; Server.localPort := 8081 |}
     = Normal LeftToSocketIo.
Proof.
  split; [|reflexivity].
  exists "/socket.io", "8081", "/x".
  repeat split; try discriminate.
  right. exists "x". reflexivity.
Qed.

(** C10.  For a path [/_proxy/0/...] [getRequestPort] returns 0, the value
    it returns for a path with no reverse-proxy segment; the router of the
    running server never forwards such a request through the reverse proxy,
    it gives it to the default handler (which answers 404, the path being
    none of the Jupyter paths). *)
Theorem port_zero_goes_to_default
        (pathname : string -> string) (settings : AppSettings.t)
        (jupyter : Jupyter.State) (request : Server.IncomingMessage)
        (rest : string) :
  pathname (Server.url request) = proxy_path "0" rest ->
  ReverseProxy.getRequestPort (proxy_path "0" rest) = 0%N
  /\ (forall path, ReverseProxy.regex_exec path = None ->
                   ReverseProxy.getRequestPort path = 0%N)
  /\ Server.uncheckedRequestHandler
       pathname (Server.socketIoHandlers settings) jupyter request
     = Server.handleRequest jupyter request (proxy_path "0" rest)
  /\ Server.handleRequest jupyter request (proxy_path "0" rest)
     = Normal (Responded (end_with 404))
  /\ forall call,
      Server.uncheckedRequestHandler
        pathname (Server.socketIoHandlers settings) jupyter request
      <> Normal (ReverseProxyWeb call).
Proof.
  intros Hpath.
  assert (Hzero : ReverseProxy.getRequestPort (proxy_path "0" rest) = 0%N)
    by reflexivity.
  assert (Hroute : Server.uncheckedRequestHandler
                     pathname (Server.socketIoHandlers settings) jupyter request
                   = Server.handleRequest jupyter request (proxy_path "0" rest)).
  { rewrite (router_without_port pathname _ jupyter request);
      [|left; rewrite Hpath; exact Hzero].
    rewrite Hpath, run_handlers_skip_proxy_path, proxy_path_not_socketio.
    reflexivity. }
  split; [exact Hzero|].
  split; [exact getRequestPort_no_match|].
  split; [exact Hroute|].
  split; [reflexivity|].
  intros call. rewrite Hroute. apply handleRequest_not_reverse_proxy.
Qed.

Lemma port_zero_goes_to_default_witness :
  Server.uncheckedRequestHandler
    origin_pathname (Server.socketIoHandlers sample_settings) (Some sample_server)
    {| Server.url := "/_proxy/0/api/x?y"; Server.localPort := 8081 |}
  = Normal (Responded {| statusCode := 404; body := EmptyString; finished := true |}).
Proof.
  destruct (port_zero_goes_to_default
              origin_pathname sample_settings (Some sample_server)
              {| Server.url := "/_proxy/0/api/x?y"; Server.localPort := 8081 |}
              "api/x" eq_refl)
    as (_ & _ & Hroute & Hdefault & _).
  rewrite Hroute. exact Hdefault.
Defined.

(** ** The Jupyter manager *)

Section ManagerFacts.

Import Jupyter.

Lemma run_app (before after : list Event) (st : State) :
  run (before ++ after) st = run after (run before st).
Proof. unfold run. apply fold_left_app. Qed.

(** Only a successful probe assigns a server object. *)
Lemma step_keeps_absent (e : Event) :
  is_probe_success e = false -> step None e = None.
Proof. destruct e; simpl; intros H; [discriminate | reflexivity ..]. Qed.

Lemma run_keeps_absent (events : list Event) :
  no_probe_success events = true -> run events None = None.
Proof.
  induction events as [|e events IH]; simpl; intros H.
  - reflexivity.
  - apply andb_prop in H as [He Hrest].
    apply negb_true_iff in He.
    unfold run in *. simpl. rewrite (step_keeps_absent e He). exact (IH Hrest).
Qed.

Lemma step_exit (st : State) : step st ChildExit = None.
Proof. reflexivity. Qed.

Lemma not_ready_absent (events : list Event) :
  not_ready events -> run events initial = None.
Proof.
  intros [Hnever | (before & after & Hsplit & Hafter)].
  - apply run_keeps_absent. exact Hnever.
  - subst events. rewrite run_app.
    change (run (ChildExit :: after) (run before initial))
      with (run after (step (run before initial) ChildExit)).
    rewrite step_exit. apply run_keeps_absent. exact Hafter.
Qed.

Lemma handleRequest_absent (url : string) :
  handleRequest None url
  = Normal (Responded {| statusCode := 500; body := EmptyString; finished := true |}).
Proof. reflexivity. Qed.

(** X24.  With a server object registered, [close] sends SIGHUP to the
    child, drops what the signalling raises, ends normally and leaves the
    manager absent. *)
Lemma close_registered (kill_result : Completion unit) (server : JupyterServer) :
  fst (fst (close kill_result (Some server))) = Normal tt
  /\ snd (fst (close kill_result (Some server))) = None
  /\ forall child, childProcess server = Some child ->
                   snd (close kill_result (Some server)) = [Kill child "SIGHUP"].
Proof.
  unfold close. destruct (childProcess server) as [child|]; simpl.
  - destruct kill_result as [[]|];
      (split; [reflexivity | split; [reflexivity | intros ? [= <-]; reflexivity]]).
  - split; [reflexivity | split; [reflexivity | discriminate]].
Qed.

(** Whatever the state, the manager is absent after [close]. *)
Lemma run_after_close (earlier : list Event) (kill_result : Completion unit) :
  run (earlier ++ [Close kill_result]) initial = None.
Proof.
  rewrite run_app. unfold run at 1. simpl. unfold close.
  destruct (run earlier initial) as [server|]; [|reflexivity].
  destruct (childProcess server); reflexivity.
Qed.

End ManagerFacts.



(** The limit of the second case: a probe that succeeds after the exit of
    the child registers the server object again, and requests are
    forwarded to its proxy. *)
Remark probe_success_after_exit_registers (server : Jupyter.JupyterServer) :
  Jupyter.run [Jupyter.ChildExit; Jupyter.ProbeSucceeded server] Jupyter.initial
  = Some server.
Proof. reflexivity. Qed.


(** C6 fails on the code where no server object is registered: [close]
    reads [jupyterServer.childProcess] outside its [try], so with
    [jupyterServer] null it raises a TypeError, whatever the signalling
    would have done.  That is the state before a probe has succeeded,
    after the exit of the child, and after an earlier [close]. *)
Theorem close_without_server_raises
        (events : list Jupyter.Event) (kill_result : Completion unit) :
  not_ready events ->
  Jupyter.close kill_result (Jupyter.run events Jupyter.initial)
  = (Throw "TypeError", None, [])
  /\ forall earlier first_kill,
      Jupyter.close kill_result
                    (Jupyter.run (earlier ++ [Jupyter.Close first_kill]) Jupyter.initial)
      = (Throw "TypeError", None, []).
Proof.
  intros H. rewrite (not_ready_absent events H). split; [reflexivity|].
  intros earlier first_kill. rewrite run_after_close. reflexivity.
Qed.

Lemma close_without_server_raises_witness :
  Jupyter.close (Normal tt)
                (Jupyter.run [Jupyter.ProbeSucceeded sample_server; Jupyter.ChildExit]
                             Jupyter.initial)
  = (Throw "TypeError", None, []).
Proof.
  refine (proj1 (close_without_server_raises
                   [Jupyter.ProbeSucceeded sample_server; Jupyter.ChildExit]
                   (Normal tt) _)).
  right. exists [Jupyter.ProbeSucceeded sample_server], [].
  split; reflexivity.
Defined.

(** ** The log lines of the Jupyter process *)

Section PipeOutputFacts.

Import Jupyter.

Lemma first_three_of_many (l : list string) (d : string) :
  3 <= List.length l ->
  List.length (firstn 3 l) = 3
  /\ nth 1 (firstn 3 l) d = nth 1 l d
  /\ nth 2 (firstn 3 l) d = nth 2 l d.
Proof.
  destruct l as [|a [|b [|c l]]]; simpl; intros H; try lia.
  repeat split.
Qed.

Lemma first_three_of_few (l : list string) :
  List.length l < 3 -> (List.length (firstn 3 l) =? 3)%nat = false.
Proof.
  destruct l as [|a [|b [|c l]]]; simpl; intros H; try reflexivity; lia.
Qed.

Lemma log_at_unknown (level message : string) :
  level <> LogLevels.Critical -> level <> LogLevels.Error ->
  level <> LogLevels.Warning -> level <> LogLevels.Info ->
  log_at level message = debug message.
Proof.
  intros Hc He Hw Hi. unfold log_at.
  apply String.eqb_neq in Hc, He, Hw, Hi.
  rewrite Hc, He, Hw, Hi. reflexivity.
Qed.

End PipeOutputFacts.

(** C9, as amended.  A line that is not blank and has at least three
    fields between [|] is logged at the level its second field maps to
    (CRITICAL and ERROR to error, WARNING to warn, INFO to info, DEBUG,
    NOTSET and every other level to debug), with its third field alone as
    the message: what follows a third [|] is not logged.  A line that is
    not blank and has fewer than three fields is logged as it is, as a
    warning. *)
Theorem pipe_line_by_fields (line : string) :
  blank line = false ->
  (3 <= List.length (fields line) ->
   Jupyter.pipe_line line
   = [Jupyter.log_at (nth 1 (fields line) EmptyString)
                     (nth 2 (fields line) EmptyString)])
  /\ (List.length (fields line) < 3 -> Jupyter.pipe_line line = [Jupyter.warn line])
  /\ (forall message,
        Jupyter.log_at "CRITICAL" message = Jupyter.error message
        /\ Jupyter.log_at "ERROR" message = Jupyter.error message
        /\ Jupyter.log_at "WARNING" message = Jupyter.warn message
        /\ Jupyter.log_at "INFO" message = Jupyter.info message
        /\ Jupyter.log_at "DEBUG" message = Jupyter.debug message
        /\ Jupyter.log_at "NOTSET" message = Jupyter.debug message)
  /\ (forall level message,
        level <> "CRITICAL" -> level <> "ERROR" ->
        level <> "WARNING" -> level <> "INFO" ->
        Jupyter.log_at level message = Jupyter.debug message).
Proof.
  intros Hblank. unfold blank in Hblank.
  split; [|split; [|split]].
  - intros Hmany. unfold Jupyter.pipe_line, split_limit. rewrite Hblank.
    destruct (first_three_of_many (fields line) EmptyString Hmany) as (Hlen & H1 & H2).
    unfold fields in *. rewrite Hlen, H1, H2. reflexivity.
  - intros Hfew. unfold Jupyter.pipe_line, split_limit. rewrite Hblank.
    unfold fields in Hfew. rewrite (first_three_of_few _ Hfew). reflexivity.
  - intros message. repeat split.
  - intros level message. apply log_at_unknown.
Qed.

Lemma pipe_line_by_fields_witness :
  Jupyter.pipe_line "[W 10:15:02 NotebookApp]|WARNING|Config option ignored"
  = [Jupyter.warn "Config option ignored"]
  /\ Jupyter.pipe_line "Traceback (most recent call last):"
     = [Jupyter.warn "Traceback (most recent call last):"].
Proof.
  split.
  - rewrite (proj1 (pipe_line_by_fields
                      "[W 10:15:02 NotebookApp]|WARNING|Config option ignored"
                      eq_refl)).
    + reflexivity.
    + vm_compute. lia.
  - apply (proj1 (proj2 (pipe_line_by_fields
                           "Traceback (most recent call last):" eq_refl))).
    vm_compute. lia.
Defined.

(** C9 as stated fails: the line [x|INFO|a|b] has four fields, not three,
    and it is not logged as it is as a warning; it is logged at info with
    the message [a]. *)
Lemma line_of_four_fields_is_not_a_warning :
  blank "x|INFO|a|b" = false
  /\ List.length (fields "x|INFO|a|b") = 4
  /\ Jupyter.pipe_line "x|INFO|a|b" = [Jupyter.info "a"]
  /\ Jupyter.pipe_line "x|INFO|a|b" <> [Jupyter.warn "x|INFO|a|b"].
Proof. repeat split. discriminate. Qed.

(** ** The terminal bridge *)

Section PtyFacts.

Import SocketIoToPty.

Lemma on_pty_data_count (session : Session) (chunk : string) :
  unackedCount (fst (on_pty_data session chunk)) = (unackedCount session + 1)%Z.
Proof. reflexivity. Qed.

Lemma on_pty_data_pause (session : Session) (chunk : string) :
  existsb is_pause (snd (on_pty_data session chunk)) = true
  <-> (UNACKED_HIGH_WATER < unackedCount session + 1)%Z.
Proof.
  unfold on_pty_data. simpl.
  destruct (Z.ltb_spec UNACKED_HIGH_WATER (unackedCount session + 1)); simpl.
  - tauto.
  - split; [discriminate | lia].
Qed.

Lemma on_ack_count (session : Session) :
  unackedCount (fst (on_ack session)) = Z.max 0 (unackedCount session - 1).
Proof. reflexivity. Qed.

Lemma on_ack_resume (session : Session) :
  existsb is_resume (snd (on_ack session)) = true
  <-> (unackedCount (fst (on_ack session)) < UNACKED_LOW_WATER)%Z.
Proof.
  unfold on_ack. simpl.
  destruct (Z.ltb_spec (Z.max 0 (unackedCount session - 1)) UNACKED_LOW_WATER); simpl.
  - tauto.
  - split; [discriminate | lia].
Qed.

Lemma step_nonnegative (session : Session) (e : Event) :
  (0 <= unackedCount session)%Z -> (0 <= unackedCount (fst (step session e)))%Z.
Proof. destruct e; simpl; lia. Qed.

Lemma run_cons (e : Event) (events : list Event) (session : Session) :
  run (e :: events) session
  = (fst (run events (fst (step session e))),
     snd (step session e) :: snd (run events (fst (step session e)))).
Proof.
  simpl. destruct (step session e) as [session1 effects]. simpl.
  destruct (run events session1) as [final trace]. reflexivity.
Qed.

Lemma run_nonnegative (events : list Event) :
  forall session,
    (0 <= unackedCount session)%Z ->
    (0 <= unackedCount (fst (run events session)))%Z.
Proof.
  induction events as [|e events IH]; intros session H.
  - exact H.
  - rewrite run_cons. simpl. apply IH, step_nonnegative, H.
Qed.

(** Chunks that no acknowledgment answers: the count grows by one each,
    and a chunk pauses the terminal when it is the 21st or a later one. *)
Lemma run_chunks (chunk : string) (n : nat) :
  forall session (m : nat),
    unackedCount session = Z.of_nat m ->
    unackedCount (fst (run (repeat (Chunk chunk) n) session)) = Z.of_nat (m + n)
    /\ map (existsb is_pause) (snd (run (repeat (Chunk chunk) n) session))
       = map (fun k => Nat.ltb 20 k) (seq (S m) n).
Proof.
  induction n as [|n IH]; intros session m Hm.
  - simpl. rewrite Nat.add_0_r. split; [exact Hm | reflexivity].
  - change (repeat (Chunk chunk) (S n)) with (Chunk chunk :: repeat (Chunk chunk) n).
    rewrite run_cons.
    destruct (IH (fst (step session (Chunk chunk))) (S m)) as [Hcount Hpause].
    { simpl. rewrite Hm. lia. }
    split.
    + cbn [fst snd]. rewrite Hcount. f_equal. lia.
    + cbn [fst snd map seq]. rewrite Hpause. f_equal.
      simpl. rewrite Hm. unfold UNACKED_HIGH_WATER.
      destruct (Z.ltb_spec 20 (Z.of_nat m + 1)), (Nat.ltb_spec 20 (S m));
        simpl; try reflexivity; lia.
Qed.

End PtyFacts.

(** C5.  In a terminal session every output chunk adds one to
    [unackedCount], and the terminal is paused by a chunk exactly when the
    count it reaches is above 20, which without acknowledgments is at the
    21st chunk and not before; every acknowledgment takes one off the
    count but never below 0, so that the count of a session is never
    negative whatever the chunks and acknowledgments; and the terminal is
    resumed by an acknowledgment exactly when the count it leaves is
    below 2. *)
Theorem pty_backpressure :
  (forall session chunk,
      SocketIoToPty.unackedCount (fst (SocketIoToPty.on_pty_data session chunk))
      = (SocketIoToPty.unackedCount session + 1)%Z)
  /\ (forall session chunk,
         existsb SocketIoToPty.is_pause (snd (SocketIoToPty.on_pty_data session chunk))
         = true
         <-> (20 < SocketIoToPty.unackedCount session + 1)%Z)
  /\ (forall counter chunk n,
         SocketIoToPty.unackedCount
           (fst (SocketIoToPty.run (repeat (SocketIoToPty.Chunk chunk) n)
                                   (SocketIoToPty.new_session counter)))
         = Z.of_nat n
         /\ map (existsb SocketIoToPty.is_pause)
                (snd (SocketIoToPty.run (repeat (SocketIoToPty.Chunk chunk) n)
                                        (SocketIoToPty.new_session counter)))
            = map (fun k => Nat.ltb 20 k) (seq 1 n))
  /\ (forall session,
         SocketIoToPty.unackedCount (fst (SocketIoToPty.on_ack session))
         = Z.max 0 (SocketIoToPty.unackedCount session - 1))
  /\ (forall counter events,
         (0 <= SocketIoToPty.unackedCount
                 (fst (SocketIoToPty.run events (SocketIoToPty.new_session counter))))%Z)
  /\ (forall session,
         existsb SocketIoToPty.is_resume (snd (SocketIoToPty.on_ack session)) = true
         <-> (SocketIoToPty.unackedCount (fst (SocketIoToPty.on_ack session)) < 2)%Z).
Proof.
  split; [exact on_pty_data_count|].
  split; [exact on_pty_data_pause|].
  split; [intros counter chunk n;
          exact (run_chunks chunk n (SocketIoToPty.new_session counter) 0 eq_refl)|].
  split; [exact on_ack_count|].
  split; [intros counter events; apply run_nonnegative; simpl; lia|].
  exact on_ack_resume.
Qed.

(** C7 fails on the code: the ['data'] listener of a terminal session has
    no [try]; on a payload that [JSON.parse] rejects, the SyntaxError
    leaves the listener after the debug line, and the session is neither
    disconnected nor is an error logged. *)
Theorem bad_json_leaves_pty_listener
        (JSON_parse : string -> SocketIoToPty.Parsed)
        (session : SocketIoToPty.Session) (payload : string) :
  JSON_parse payload = SocketIoToPty.SyntaxError ->
  SocketIoToPty.on_data JSON_parse session payload
  = (Throw "SyntaxError", [SocketIoToPty.LogDebug "Send data in session %d\n%s"]).
Proof.
  intros H. unfold SocketIoToPty.on_data. rewrite H. reflexivity.
Qed.

Lemma bad_json_leaves_pty_listener_witness :
  SocketIoToPty.on_data
    (fun payload => if String.eqb payload "{" then SocketIoToPty.SyntaxError
                    else SocketIoToPty.JsonNull)
    (SocketIoToPty.new_session 0) "{"
  = (Throw "SyntaxError", [SocketIoToPty.LogDebug "Send data in session %d\n%s"]).
Proof.
  apply (bad_json_leaves_pty_listener
           (fun payload => if String.eqb payload "{" then SocketIoToPty.SyntaxError
                           else SocketIoToPty.JsonNull)
           (SocketIoToPty.new_session 0) "{").
  reflexivity.
Defined.

(** ** The kernel socket bridge *)

Section KernelSessionFacts.

Import Sockets.

Variable appSettings : AppSettings.t.
Variable url_parse_path : string -> string.
Variable new_WebSocket_raises : string -> bool.

Lemma closeWebSocket_clears (session : Session) :
  webSocket (fst (closeWebSocket session)) = None.
Proof.
  unfold closeWebSocket. destruct (webSocket session) eqn:H; simpl; [reflexivity | exact H].
Qed.

Lemma on_stop_clears (session : Session) :
  webSocket (fst (on_stop session)) = None.
Proof.
  unfold on_stop. pose proof (closeWebSocket_clears session) as H.
  destruct (closeWebSocket session). exact H.
Qed.

(** After [start] and [stop] the session holds no socket, whether the
    socket of [start] could be made or not. *)
Lemma start_then_stop_clears (session : Session) (message_url : string) :
  webSocket
    (fst (on_stop
            (fst (on_start appSettings url_parse_path new_WebSocket_raises
                           session message_url))))
  = None.
Proof. apply on_stop_clears. Qed.

End KernelSessionFacts.

(** C8.  In a kernel session that holds no upstream socket, a ['data']
    message of the client, whatever it is, is dropped: the listener ends
    normally, leaves the session as it was, logs one error, and neither
    sends to a socket nor emits to or disconnects the client. *)
Theorem data_without_socket_is_dropped
        (session : Sockets.Session) (message : Sockets.Message)
        (send_error : option string) :
  Sockets.webSocket session = None ->
  Sockets.on_data session message send_error
  = (Normal session,
     [Sockets.LogError "Unable to send message; WebSocket is not open"])
  /\ existsb Sockets.reaches_client
             (snd (Sockets.on_data session message send_error)) = false.
Proof.
  intros H. unfold Sockets.on_data. rewrite H. split; reflexivity.
Qed.

Lemma data_without_socket_is_dropped_witness :
  snd (Sockets.on_data
         (fst (Sockets.on_stop
                 (fst (Sockets.on_start sample_settings (fun _ => "/")
                                        (fun _ => false)
                                        (Sockets.new_session 1) "ws://x"))))
         (Sockets.Envelope "shell" "{}") None)
  = [Sockets.LogError "Unable to send message; WebSocket is not open"].
Proof.
  rewrite (proj1 (data_without_socket_is_dropped
                    (fst (Sockets.on_stop
                            (fst (Sockets.on_start sample_settings (fun _ => "/")
                                                   (fun _ => false)
                                                   (Sockets.new_session 1) "ws://x"))))
                    (Sockets.Envelope "shell" "{}") None
                    (start_then_stop_clears sample_settings (fun _ => "/")
                                            (fun _ => false)
                                            (Sockets.new_session 1) "ws://x"))).
  reflexivity.
Defined.

(** ** More on the reverse proxy *)

Section ReverseProxyMatches.

Import ReverseProxy.

Lemma append_nil_r (s : string) : (s ++ EmptyString)%string = s.
Proof. induction s as [|c s IH]; simpl; [reflexivity | f_equal; exact IH]. Qed.

Lemma span_digits_end (ds : string) :
  allDigits ds = true -> span_digits ds = (ds, EmptyString).
Proof.
  induction ds as [|c ds IH]; simpl; intros H.
  - reflexivity.
  - apply andb_prop in H as [Hc Hds]. rewrite Hc, (IH Hds). reflexivity.
Qed.

(** A segment at the start of the string is a match there. *)
Lemma match_here_segment (s ds after : string) :
  segment_at s EmptyString ds after -> match_here s <> None.
Proof.
  intros (-> & Hne & Hds & Hafter). unfold match_here. simpl.
  destruct ds as [|d ds]; [contradiction|].
  destruct Hafter as [-> | [rest ->]].
  - rewrite append_nil_r, (span_digits_end _ Hds). discriminate.
  - change ("/" ++ rest)%string with (String "/" rest).
    rewrite (span_digits_slash _ rest Hds). simpl. discriminate.
Qed.

Lemma regex_exec_step (c : ascii) (s : string) :
  match_here (String c s) = None ->
  regex_exec (String c s)
  = match regex_exec s with
    | Some (before, ds, after) => Some (String c before, ds, after)
    | None => None
    end.
Proof. intros H. simpl. simpl in H. rewrite H. reflexivity. Qed.

Lemma regex_exec_here (s ds after : string) :
  match_here s = Some (ds, after) -> regex_exec s = Some (EmptyString, ds, after).
Proof.
  intros H. destruct s as [|c s]; [discriminate|].
  simpl. simpl in H. rewrite H. reflexivity.
Qed.

Lemma regex_exec_finds (path before ds after : string) :
  segment_at path before ds after -> regex_exec path <> None.
Proof.
  revert path. induction before as [|c before IH]; intros path Hseg.
  - pose proof (match_here_segment path ds after Hseg) as Hm.
    destruct (match_here path) as [[ds' after']|] eqn:E; [|contradiction].
    rewrite (regex_exec_here _ _ _ E). discriminate.
  - destruct Hseg as (-> & Hne & Hds & Hafter).
    change ((String c before ++ "/_proxy/" ++ ds ++ after)%string)
      with (String c (before ++ "/_proxy/" ++ ds ++ after)%string).
    destruct (match_here (String c (before ++ "/_proxy/" ++ ds ++ after)))
      as [[ds' after']|] eqn:E.
    + rewrite (regex_exec_here _ _ _ E). discriminate.
    + rewrite (regex_exec_step _ _ E).
      assert (Hrec : regex_exec (before ++ "/_proxy/" ++ ds ++ after)%string <> None).
      { apply IH. repeat split; assumption. }
      destruct (regex_exec (before ++ "/_proxy/" ++ ds ++ after)%string)
        as [[[b d] a]|]; [discriminate | contradiction].
Qed.

Lemma regex_exec_segment (path before ds after : string) :
  regex_exec path = Some (before, ds, after) ->
  exists behind, segment_at path before ds behind.
Proof.
  intros H.
  destruct (regex_exec_sound _ _ _ _ H) as (Hne & Hds & [[Hs ->] | Hs]).
  - exists EmptyString. repeat split; try assumption.
    + rewrite Hs. rewrite append_nil_r. reflexivity.
    + left. reflexivity.
  - exists ("/" ++ after)%string. repeat split; try assumption.
    right. exists after. reflexivity.
Qed.

End ReverseProxyMatches.

(** X2.  The pattern of the reverse proxy matches a path exactly when the
    path holds a segment [/_proxy/<digits>] that ends the path or is
    followed by a slash. *)
Theorem regex_matches_iff_segment (path : string) :
  ReverseProxy.regex_exec path <> None
  <-> exists before ds after, segment_at path before ds after.
Proof.
  split.
  - intros H.
    destruct (ReverseProxy.regex_exec path) as [[[before ds] after]|] eqn:E;
      [|contradiction].
    destruct (regex_exec_segment _ _ _ _ E) as [behind Hseg].
    exists before, ds, behind. exact Hseg.
  - intros (before & ds & after & Hseg).
    exact (regex_exec_finds path before ds after Hseg).
Qed.

(** X3.  The match of the pattern is the leftmost segment: no segment of the
    path starts before the text that [regex_exec] reports in front of its
    match. *)
Theorem regex_match_is_leftmost (path before ds after : string) :
  ReverseProxy.regex_exec path = Some (before, ds, after) ->
  forall before' ds' after',
    segment_at path before' ds' after' ->
    String.length before <= String.length before'.
Proof.
  revert before. induction path as [|c path IH]; intros before H before' ds' after' Hseg.
  - discriminate.
  - destruct (ReverseProxy.match_here (String c path)) as [[d a]|] eqn:E.
    + rewrite (regex_exec_here _ _ _ E) in H. injection H as <- <- <-.
      simpl. lia.
    + rewrite (regex_exec_step _ _ E) in H.
      destruct (ReverseProxy.regex_exec path) as [[[b d] a]|] eqn:Hrec;
        [|discriminate].
      injection H as <- <- <-.
      destruct before' as [|c' before'].
      * exfalso. exact (match_here_segment _ _ _ Hseg E).
      * destruct Hseg as (Hpath & Hne & Hds & Hafter).
        simpl in Hpath. injection Hpath as _ Hpath.
        simpl. apply le_n_S.
        apply (IH b eq_refl before' ds' after').
        repeat split; assumption.
Qed.

Lemma regex_match_is_leftmost_witness :
  String.length "/x" <= String.length "/x/_proxy/80".
Proof.
  apply (regex_match_is_leftmost
           "/x/_proxy/80/_proxy/8081/y" "/x" "80" "_proxy/8081/y" eq_refl
           "/x/_proxy/80" "8081" "/y").
  repeat split; try discriminate.
  right. exists "y". reflexivity.
Defined.

Section ReverseProxyRewrites.

Import ReverseProxy.

Lemma span_digits_stop (ds rest : string) (c : ascii) :
  allDigits ds = true -> isDigit c = false ->
  span_digits (ds ++ String c rest)%string = (ds, String c rest).
Proof.
  intros Hds Hc. induction ds as [|d ds IH]; simpl.
  - rewrite Hc. reflexivity.
  - simpl in Hds. apply andb_prop in Hds as [Hd Hds].
    rewrite Hd, (IH Hds). reflexivity.
Qed.

Lemma match_here_needs_slash (c : ascii) (s : string) :
  Ascii.eqb "/" c = false -> match_here (String c s) = None.
Proof. intros H. unfold match_here. cbn [strip]. rewrite H. reflexivity. Qed.

Lemma match_here_needs_underscore (c : ascii) (s : string) :
  Ascii.eqb "_" c = false -> match_here (String "/" (String c s)) = None.
Proof.
  intros H. unfold match_here. cbn [strip].
  change (Ascii.eqb "/" "/") with true. cbn iota. rewrite H. reflexivity.
Qed.

Lemma no_char_app (c : ascii) (a b : string) :
  no_char c (a ++ b) = no_char c a && no_char c b.
Proof.
  induction a as [|x a IH]; simpl; [reflexivity|].
  rewrite IH. apply andb_assoc.
Qed.

Lemma regex_exec_no_slash (s : string) :
  no_char "/" s = true -> regex_exec s = None.
Proof.
  induction s as [|c s IH]; intros H.
  - reflexivity.
  - simpl in H. apply andb_prop in H as [Hc Hs].
    apply negb_true_iff in Hc. rewrite Ascii.eqb_sym in Hc.
    rewrite (regex_exec_step c s (match_here_needs_slash c s Hc)).
    rewrite (IH Hs). reflexivity.
Qed.

Lemma digit_is_not_slash (d : ascii) : isDigit d = true -> Ascii.eqb d "/" = false.
Proof.
  intros H. destruct (Ascii.eqb_spec d "/") as [->|]; [discriminate | reflexivity].
Qed.

Lemma digit_is_not_underscore (d : ascii) : isDigit d = true -> Ascii.eqb "_" d = false.
Proof.
  intros H. destruct (Ascii.eqb_spec "_" d) as [<-|]; [discriminate | reflexivity].
Qed.

Lemma digits_have_no_slash (ds : string) :
  allDigits ds = true -> no_char "/" ds = true.
Proof.
  induction ds as [|d ds IH]; simpl; intros H; [reflexivity|].
  apply andb_prop in H as [Hd Hds].
  rewrite (digit_is_not_slash d Hd), (IH Hds). reflexivity.
Qed.

(** In front of a segment, text without an underscore holds no match. *)
Lemma regex_exec_after_plain (before ds rest : string) :
  no_char "_" before = true ->
  ds <> EmptyString -> allDigits ds = true ->
  regex_exec (before ++ proxy_path ds rest) = Some (before, ds, rest).
Proof.
  intros Hplain Hne Hds. induction before as [|c before IH].
  - apply regex_exec_marker; assumption.
  - simpl in Hplain. apply andb_prop in Hplain as [Hc Hplain].
    apply negb_true_iff in Hc.
    change ((String c before ++ proxy_path ds rest)%string)
      with (String c (before ++ proxy_path ds rest)).
    assert (Hm : match_here (String c (before ++ proxy_path ds rest)) = None).
    { destruct (Ascii.eqb "/" c) eqn:Hslash.
      - apply Ascii.eqb_eq in Hslash. subst c.
        destruct before as [|x before].
        + reflexivity.
        + simpl in Hplain. apply andb_prop in Hplain as [Hx _].
          apply negb_true_iff in Hx. rewrite Ascii.eqb_sym in Hx.
          apply match_here_needs_underscore. exact Hx.
      - apply match_here_needs_slash. exact Hslash. }
    rewrite (regex_exec_step _ _ Hm), (IH Hplain). reflexivity.
Qed.

(** A segment that a question mark follows is no match, and neither is
    anything in a query without a slash. *)
Lemma regex_exec_marker_then_query (ds query : string) :
  ds <> EmptyString -> allDigits ds = true ->
  no_char "/" query = true ->
  regex_exec ("/_proxy/" ++ ds ++ "?" ++ query) = None.
Proof.
  intros Hne Hds Hq.
  destruct ds as [|d ds]; [contradiction|].
  simpl in Hds. apply andb_prop in Hds as [Hd Hds].
  assert (Hrest : regex_exec (String d ds ++ "?" ++ query)%string = None).
  { apply regex_exec_no_slash. rewrite no_char_app. simpl.
    rewrite (digit_is_not_slash d Hd), (digits_have_no_slash ds Hds), Hq.
    reflexivity. }
  assert (H0 : match_here ("/_proxy/" ++ String d ds ++ "?" ++ query)%string = None).
  { unfold match_here. simpl. rewrite Hd.
    change (ds ++ String "?" query)%string with (ds ++ String "?" query)%string.
    rewrite (span_digits_stop ds query "?" Hds eq_refl). reflexivity. }
  change ("/_proxy/" ++ String d ds ++ "?" ++ query)%string
    with (String "/" ("_proxy/" ++ String d ds ++ "?" ++ query)%string) in *.
  rewrite (regex_exec_step _ _ H0).
  change ("_proxy/" ++ String d ds ++ "?" ++ query)%string
    with (String "_" (String "p" (String "r" (String "o" (String "x" (String "y"
           (String "/" (String d ds ++ "?" ++ query)%string))))))).
  do 6 (rewrite regex_exec_step by (apply match_here_needs_slash; reflexivity)).
  rewrite regex_exec_step
    by (apply match_here_needs_underscore, digit_is_not_underscore, Hd).
  rewrite Hrest. reflexivity.
Qed.

Lemma getRequestPort_marker_at_end (ds : string) :
  ds <> EmptyString -> allDigits ds = true ->
  getRequestPort ("/_proxy/" ++ ds) = Number ds.
Proof.
  intros Hne Hds. unfold getRequestPort.
  assert (Hm : match_here ("/_proxy/" ++ ds)%string = Some (ds, EmptyString)).
  { unfold match_here. simpl. rewrite (span_digits_end ds Hds).
    destruct ds; [contradiction | reflexivity]. }
  rewrite (regex_exec_here _ _ _ Hm). reflexivity.
Qed.

End ReverseProxyRewrites.

(** X4.  For a port within the range of ports, [handleRequest] of the
    reverse proxy targets [http://localhost:<port>], and it either finds no segment in the URL and
    passes the URL on as it is, or cuts one segment out of it, with the
    slash that follows the digits if there is one, and passes on what was
    before the segment joined to what was after it. *)
Theorem rewrite_cuts_one_segment (url : string) (port : N) :
  (port <= 65535)%N ->
  ReverseProxy.target (ReverseProxy.handleRequest url port)
  = ("http://localhost:" ++ toString port)%string
  /\ ((~ (exists before ds after, segment_at url before ds after)
       /\ ReverseProxy.request_url (ReverseProxy.handleRequest url port) = url)
      \/ exists before ds after,
        ds <> EmptyString /\ allDigits ds = true
        /\ (url = (before ++ "/_proxy/" ++ ds)%string /\ after = EmptyString
            \/ url = (before ++ "/_proxy/" ++ ds ++ "/" ++ after)%string)
        /\ ReverseProxy.request_url (ReverseProxy.handleRequest url port)
           = (before ++ after)%string).
Proof.
  intros _. split; [reflexivity|].
  unfold ReverseProxy.handleRequest, ReverseProxy.replace_regex. simpl.
  destruct (ReverseProxy.regex_exec url) as [[[before ds] after]|] eqn:E.
  - right. exists before, ds, after.
    destruct (regex_exec_sound _ _ _ _ E) as (Hne & Hds & Hform).
    repeat split; assumption.
  - left. split; [|reflexivity].
    intros (before & ds & after & Hseg).
    exact (regex_exec_finds url before ds after Hseg E).
Qed.

Lemma rewrite_cuts_one_segment_witness :
  ReverseProxy.target (ReverseProxy.handleRequest "/a/_proxy/8080" 8080)
  = "http://localhost:8080".
Proof.
  exact (proj1 (rewrite_cuts_one_segment
                  "/a/_proxy/8080" 8080%N ltac:(vm_compute; discriminate))).
Defined.

(** X5.  A segment in the middle of a path, behind text that holds no
    underscore and with digits in the range of ports, is found, and cutting it out joins the text before it to
    the text after its slash with nothing between them. *)
Theorem middle_segment_is_cut_without_separator
        (before ds rest : string) (port : N) :
  no_char "_" before = true ->
  ds <> EmptyString ->
  allDigits ds = true ->
  (Number ds <= 65535)%N ->
  ReverseProxy.getRequestPort (before ++ proxy_path ds rest) = Number ds
  /\ ReverseProxy.request_url
       (ReverseProxy.handleRequest (before ++ proxy_path ds rest) port)
     = (before ++ rest)%string.
Proof.
  intros Hplain Hne Hds _.
  pose proof (regex_exec_after_plain before ds rest Hplain Hne Hds) as Hexec.
  split.
  - unfold ReverseProxy.getRequestPort. rewrite Hexec.
    destruct (before ++ proxy_path ds rest)%string eqn:E; [|reflexivity].
    destruct before; discriminate.
  - unfold ReverseProxy.handleRequest, ReverseProxy.replace_regex. simpl.
    rewrite Hexec. reflexivity.
Qed.

Lemma middle_segment_is_cut_without_separator_witness :
  ReverseProxy.getRequestPort "/a/b/_proxy/80/c" = 80%N
  /\ ReverseProxy.request_url (ReverseProxy.handleRequest "/a/b/_proxy/80/c" 80)
     = "/a/bc".
Proof.
  exact (middle_segment_is_cut_without_separator
           "/a/b" "80" "c" 80%N eq_refl
           ltac:(discriminate) eq_refl ltac:(vm_compute; discriminate)).
Defined.

(** X6.  A request for [/_proxy/<n>] with [n] in the range of ports, with a
    query and no slash after the digits, is forwarded by the router of the running server to port [n]
    with its URL unchanged: the pathname ends at the digits and matches,
    the URL does not, so nothing is cut out. *)
Theorem segment_before_query_is_not_cut
        (pathname : string -> string) (settings : AppSettings.t)
        (jupyter : Jupyter.State) (ds query : string) (listening : N) :
  ds <> EmptyString ->
  allDigits ds = true ->
  (Number ds <= 65535)%N ->
  no_char "/" query = true ->
  Number ds <> 0%N ->
  Number ds <> listening ->
  pathname ("/_proxy/" ++ ds ++ "?" ++ query)%string = ("/_proxy/" ++ ds)%string ->
  Server.uncheckedRequestHandler
    pathname (Server.socketIoHandlers settings) jupyter
    {| Server.url := "/_proxy/" ++ ds ++ "?" ++ query; Server.localPort := listening |}
  = Normal (ReverseProxyWeb
              {| ReverseProxy.request_url := "/_proxy/" ++ ds ++ "?" ++ query;
                 ReverseProxy.target := "http://localhost:" ++ toString (Number ds) |}).
Proof.
  intros Hne Hds _ Hq Hnz Hself Hpath.
  unfold Server.uncheckedRequestHandler. cbn [Server.url Server.localPort].
  rewrite Hpath.
  assert (Hbridge : existsb (fun handler =>
                               SocketIoToPty.isPathProxied handler ("/_proxy/" ++ ds))
                            (Server.socketIoHandlers settings) = false).
  { unfold Server.socketIoHandlers. destruct (AppSettings.terminal settings); reflexivity. }
  rewrite Hbridge.
  change (Sockets.isSocketIoPath ("/_proxy/" ++ ds)) with false.
  rewrite (getRequestPort_marker_at_end ds Hne Hds).
  apply N.eqb_neq in Hnz. apply N.eqb_neq in Hself. rewrite Hnz, Hself.
  cbn [negb andb].
  unfold ReverseProxy.handleRequest, ReverseProxy.replace_regex.
  rewrite (regex_exec_marker_then_query ds query Hne Hds Hq). reflexivity.
Qed.

Lemma segment_before_query_is_not_cut_witness :
  Server.uncheckedRequestHandler
    origin_pathname (Server.socketIoHandlers sample_settings) None
    {| Server.url := "/_proxy/8080?a=1"; Server.localPort := 8081 |}
  = Normal (ReverseProxyWeb
              {| ReverseProxy.request_url := "/_proxy/8080?a=1";
                 ReverseProxy.target := "http://localhost:8080" |}).
Proof.
  exact (segment_before_query_is_not_cut
           origin_pathname sample_settings None "8080" "a=1" 8081%N
           ltac:(discriminate) eq_refl ltac:(vm_compute; discriminate) eq_refl
           ltac:(discriminate) ltac:(discriminate) eq_refl).
Defined.

Lemma getRequestPort_names_segment_witness :
  has_proxy_segment "/x/_proxy/8080" 8080.
Proof.
  exact (getRequestPort_names_segment
           "/x/_proxy/8080" ltac:(vm_compute; discriminate) ltac:(discriminate)).
Defined.

(** ** More on the router and the manager *)

Section PrefixFacts.

Lemma prefix_iff (p s : string) :
  String.prefix p s = true <-> exists rest, s = (p ++ rest)%string.
Proof.
  revert s. induction p as [|a p IH]; intros s.
  - split; [intros _; exists s; reflexivity | intros _; destruct s; reflexivity].
  - destruct s as [|b s]; simpl.
    + split; [discriminate | intros [rest H]; discriminate].
    + destruct (ascii_dec a b) as [->|Hab].
      * rewrite IH. split; intros [rest H]; exists rest.
        -- rewrite H. reflexivity.
        -- injection H as H. exact H.
      * split; [discriminate|]. intros [rest H]. injection H as H _.
        congruence.
Qed.

Lemma string_length_app (a b : string) :
  String.length (a ++ b) = String.length a + String.length b.
Proof. induction a as [|c a IH]; simpl; [reflexivity | rewrite IH; reflexivity]. Qed.

Lemma run_registered (events : list Jupyter.Event) :
  forall st server,
    Jupyter.run events st = Some server ->
    st = Some server \/ In (Jupyter.ProbeSucceeded server) events.
Proof.
  induction events as [|e events IH]; intros st server H.
  - left. exact H.
  - change (Jupyter.run (e :: events) st)
      with (Jupyter.run events (Jupyter.step st e)) in H.
    destruct (IH _ _ H) as [Hst | Hin].
    + destruct e as [server'| | |k]; simpl in Hst.
      * injection Hst as ->. right. left. reflexivity.
      * left. exact Hst.
      * discriminate.
      * unfold Jupyter.close in Hst. destruct st as [s|]; [|discriminate].
        destruct (Jupyter.childProcess s); discriminate.
    + right. right. exact Hin.
Qed.

End PrefixFacts.

(** X7.  A bridge claims a path exactly when the path is the bridge's own
    path, a slash, and anything after it; the bridge's path on its own is
    not claimed, and on the running server a request for [/tty] goes to the
    default handler and is answered 404. *)
Theorem bridge_claims_only_below_its_path
        (handler : SocketIoToPty.t) (p : string) :
  (SocketIoToPty.isPathProxied handler p = true
   <-> exists rest, p = (SocketIoToPty.path handler ++ "/" ++ rest)%string)
  /\ SocketIoToPty.isPathProxied handler (SocketIoToPty.path handler) = false
  /\ forall pathname settings jupyter request,
      pathname (Server.url request) = "/tty" ->
      Server.uncheckedRequestHandler
        pathname (Server.socketIoHandlers settings) jupyter request
      = Normal (Responded (end_with 404)).
Proof.
  assert (Hiff : forall q,
             SocketIoToPty.isPathProxied handler q = true
             <-> exists rest, q = (SocketIoToPty.path handler ++ "/" ++ rest)%string).
  { intros q. unfold SocketIoToPty.isPathProxied, indexOf_is_0.
    rewrite prefix_iff. split; intros [rest H]; exists rest; rewrite H.
    - clear. induction (SocketIoToPty.path handler) as [|c s IH]; simpl;
        [reflexivity | f_equal; exact IH].
    - clear. induction (SocketIoToPty.path handler) as [|c s IH]; simpl;
        [reflexivity | f_equal; exact IH]. }
  split; [apply Hiff|]. split.
  - destruct (SocketIoToPty.isPathProxied handler (SocketIoToPty.path handler)) eqn:E;
      [|reflexivity].
    apply Hiff in E as [rest H]. apply (f_equal String.length) in H.
    rewrite string_length_app in H. simpl in H. lia.
  - intros pathname settings jupyter request Hpath.
    unfold Server.uncheckedRequestHandler, Server.socketIoHandlers. rewrite Hpath.
    destruct (AppSettings.terminal settings); reflexivity.
Qed.

(** X8.  The default handler of the router answers 404 exactly when the
    path starts with none of [/api], [/nbextensions], [/files] and
    [/static]; the test is on characters, so a path such as [/apix] is
    handed to the Jupyter manager as well. *)
Theorem default_handler_404_iff_no_prefix
        (jupyter : Jupyter.State) (request : Server.IncomingMessage)
        (requestPath : string) :
  Server.handleRequest jupyter request requestPath = Normal (Responded (end_with 404))
  <-> ~ exists rest,
        requestPath = ("/api" ++ rest)%string
        \/ requestPath = ("/nbextensions" ++ rest)%string
        \/ requestPath = ("/files" ++ rest)%string
        \/ requestPath = ("/static" ++ rest)%string.
Proof.
  rewrite handleRequest_cases. unfold jupyter_path, indexOf_is_0.
  split.
  - intros H [rest Hrest].
    assert (Hp : String.prefix "/api" requestPath
                 || String.prefix "/nbextensions" requestPath
                 || String.prefix "/files" requestPath
                 || String.prefix "/static" requestPath = true).
    { destruct Hrest as [Hr | [Hr | [Hr | Hr]]];
        assert (Hpre := proj2 (prefix_iff _ requestPath) (ex_intro _ rest Hr));
        rewrite Hpre; repeat rewrite orb_true_r; reflexivity. }
    rewrite Hp in H. unfold Jupyter.handleRequest in H.
    destruct jupyter as [server|]; [|discriminate].
    destruct (Jupyter.proxy server); discriminate.
  - intros Hnone.
    destruct (String.prefix "/api" requestPath) eqn:H1.
    { exfalso. apply prefix_iff in H1 as [rest Hr]. apply Hnone. exists rest. tauto. }
    destruct (String.prefix "/nbextensions" requestPath) eqn:H2.
    { exfalso. apply prefix_iff in H2 as [rest Hr]. apply Hnone. exists rest. tauto. }
    destruct (String.prefix "/files" requestPath) eqn:H3.
    { exfalso. apply prefix_iff in H3 as [rest Hr]. apply Hnone. exists rest. tauto. }
    destruct (String.prefix "/static" requestPath) eqn:H4.
    { exfalso. apply prefix_iff in H4 as [rest Hr]. apply Hnone. exists rest. tauto. }
    reflexivity.
Qed.

(** X9.  When a request is forwarded to the proxy of the Jupyter manager,
    that proxy belongs to a server object for which a readiness probe has
    succeeded, and the request keeps its URL. *)
Theorem forwarded_only_after_probe
        (events : list Jupyter.Event) (url : string)
        (proxy : ProxyServer) (forwarded_url : string) :
  Jupyter.handleRequest (Jupyter.run events Jupyter.initial) url
  = Normal (JupyterProxyWeb proxy forwarded_url) ->
  forwarded_url = url
  /\ exists server,
      In (Jupyter.ProbeSucceeded server) events
      /\ Jupyter.proxy server = Some proxy.
Proof.
  unfold Jupyter.handleRequest. intros H.
  destruct (Jupyter.run events Jupyter.initial) as [server|] eqn:Hrun;
    [|discriminate].
  destruct (Jupyter.proxy server) as [p|] eqn:Hproxy; [|discriminate].
  injection H as -> ->.
  split; [reflexivity|].
  exists server. split; [|exact Hproxy].
  destruct (run_registered events _ _ Hrun) as [Hinit | Hin];
    [discriminate | exact Hin].
Qed.

Lemma forwarded_only_after_probe_witness :
  exists server,
    In (Jupyter.ProbeSucceeded server) [Jupyter.ProbeFailed; Jupyter.ProbeSucceeded sample_server]
    /\ Jupyter.proxy server = Some {| proxy_host := "localhost"; proxy_port := 9000 |}.
Proof.
  exact (proj2 (forwarded_only_after_probe
                  [Jupyter.ProbeFailed; Jupyter.ProbeSucceeded sample_server]
                  "/api/x" {| proxy_host := "localhost"; proxy_port := 9000 |}
                  "/api/x" eq_refl)).
Defined.

(** X11.  While the manager is not ready, an upgrade request is refused:
    [socketHandler] logs that the Jupyter server is not running, calls no
    proxy and raises nothing. *)
Theorem upgrade_refused_while_not_ready (events : list Jupyter.Event) :
  not_ready events ->
  Server.socketHandler (Jupyter.run events Jupyter.initial)
  = (Normal None, [Jupyter.LogError "Jupyter server is not running."]).
Proof.
  intros H. rewrite (not_ready_absent events H). reflexivity.
Qed.

Lemma upgrade_refused_while_not_ready_witness :
  Server.socketHandler
    (Jupyter.run [Jupyter.ProbeSucceeded sample_server; Jupyter.Close (Throw "ESRCH");
                  Jupyter.ChildExit] Jupyter.initial)
  = (Normal None, [Jupyter.LogError "Jupyter server is not running."]).
Proof.
  apply upgrade_refused_while_not_ready.
  right. exists [Jupyter.ProbeSucceeded sample_server; Jupyter.Close (Throw "ESRCH")], [].
  split; reflexivity.
Defined.

(** ** More on the log lines *)

Section LineFacts.

Import Jupyter.

Lemma split_cons (sep : ascii) (s : string) :
  exists piece pieces, split sep s = piece :: pieces.
Proof.
  induction s as [|c s (piece & pieces & IH)]; simpl.
  - eexists _, _. reflexivity.
  - destruct (Ascii.eqb c sep); [eexists _, _; reflexivity|].
    rewrite IH. eexists _, _. reflexivity.
Qed.

Lemma split_app_sep (sep : ascii) (a b : string) :
  split sep (a ++ String sep b) = split sep a ++ split sep b.
Proof.
  induction a as [|c a IH]; simpl.
  - rewrite Ascii.eqb_refl. reflexivity.
  - destruct (Ascii.eqb c sep); [rewrite IH; reflexivity|].
    rewrite IH. destruct (split_cons sep a) as (piece & pieces & ->). reflexivity.
Qed.

Lemma split_no_sep (sep : ascii) (s : string) :
  no_char sep s = true -> split sep s = [s].
Proof.
  induction s as [|c s IH]; simpl; intros H; [reflexivity|].
  apply andb_prop in H as [Hc Hs]. apply negb_true_iff in Hc.
  rewrite Hc, (IH Hs). reflexivity.
Qed.

Lemma trimEnd_keeps (c : ascii) (s : string) :
  isWhiteSpace c = false -> trimEnd (String c s) <> EmptyString.
Proof.
  intros Hc. simpl. destruct (trimEnd s); [rewrite Hc|]; discriminate.
Qed.

(** A line is blank when all its characters are white space. *)
Lemma blank_allWhiteSpace (s : string) : blank s = allWhiteSpace s.
Proof.
  unfold blank, trim. induction s as [|c s IH]; [reflexivity|].
  simpl trimStart. simpl allWhiteSpace.
  destruct (isWhiteSpace c) eqn:Hc.
  - exact IH.
  - pose proof (trimEnd_keeps c s Hc) as Hne.
    destruct (trimEnd (String c s)); [contradiction | reflexivity].
Qed.

Lemma allWhiteSpace_app (a b : string) :
  allWhiteSpace (a ++ b) = allWhiteSpace a && allWhiteSpace b.
Proof.
  induction a as [|c a IH]; simpl; [reflexivity|].
  rewrite IH. apply andb_assoc.
Qed.

Lemma pipe_line_length (line : string) :
  List.length (pipe_line line) = if blank line then 0 else 1.
Proof.
  unfold pipe_line, blank. destruct (String.length (trim line) =? 0)%nat; [reflexivity|].
  destruct (negb _); reflexivity.
Qed.

Lemma pipe_line_call (line : string) :
  pipe_line line = if blank line then [] else [line_call line].
Proof.
  unfold pipe_line, line_call, blank.
  destruct (String.length (trim line) =? 0)%nat; [reflexivity|].
  destruct (List.length (split_limit "|" 3 line) =? 3)%nat; reflexivity.
Qed.

Lemma pipeOutput_one_line (line : string) :
  no_char "010" line = true -> pipeOutput_on_data line = pipe_line line.
Proof.
  intros H. unfold pipeOutput_on_data. rewrite (split_no_sep _ _ H).
  simpl. apply app_nil_r.
Qed.

End LineFacts.

(** X12.  For one chunk of output the calls on the logger are, in the order
    of the lines, the call of each line of the chunk that is not blank:
    one call for every such line, made from that line, and none for a
    blank line. *)
Theorem one_call_per_nonblank_line (data : string) :
  Jupyter.pipeOutput_on_data data
  = map line_call (filter (fun line => negb (blank line)) (split "010" data)).
Proof.
  unfold Jupyter.pipeOutput_on_data.
  induction (split "010" data) as [|line lines IH]; simpl; [reflexivity|].
  rewrite IH, pipe_line_call. destruct (blank line); reflexivity.
Qed.

(** X13.  A chunk that holds a line feed is logged like the text before
    the line feed followed by the text after it. *)
Theorem chunk_splits_at_line_feed (a b : string) :
  Jupyter.pipeOutput_on_data (a ++ String "010" b)
  = Jupyter.pipeOutput_on_data a ++ Jupyter.pipeOutput_on_data b.
Proof.
  unfold Jupyter.pipeOutput_on_data.
  rewrite split_app_sep. apply flat_map_app.
Qed.

(** X14.  A record [stamp|LEVEL|message] whose stamp and level hold no
    bar is logged at the level of [LEVEL] with the message up to its first
    bar, which is the whole message when the message holds no bar. *)
Theorem record_line_is_parsed (stamp level message : string) :
  no_char "|" stamp = true ->
  no_char "|" level = true ->
  Jupyter.pipe_line (record_line stamp level message)
  = [Jupyter.log_at level (hd EmptyString (split "|" message))]
  /\ (no_char "|" message = true ->
      Jupyter.pipe_line (record_line stamp level message)
      = [Jupyter.log_at level message]).
Proof.
  intros Hstamp Hlevel.
  assert (Hfields : split "|" (record_line stamp level message)
                    = stamp :: level :: split "|" message).
  { unfold record_line.
    change ("|" ++ level ++ "|" ++ message)%string
      with (String "|" (level ++ String "|" message)).
    rewrite split_app_sep, split_app_sep.
    rewrite (split_no_sep _ _ Hstamp), (split_no_sep _ _ Hlevel). reflexivity. }
  assert (Hblank : blank (record_line stamp level message) = false).
  { rewrite blank_allWhiteSpace. unfold record_line.
    rewrite allWhiteSpace_app. simpl. apply andb_false_r. }
  assert (Hline : Jupyter.pipe_line (record_line stamp level message)
                  = [Jupyter.log_at level (hd EmptyString (split "|" message))]).
  { unfold Jupyter.pipe_line, split_limit. unfold blank in Hblank. rewrite Hblank.
    rewrite Hfields.
    destruct (split_cons "|" message) as (piece & pieces & ->). reflexivity. }
  split; [exact Hline|].
  intros Hmessage. rewrite Hline, (split_no_sep _ _ Hmessage). reflexivity.
Qed.

Lemma record_line_is_parsed_witness :
  Jupyter.pipe_line "[I 09:00:00 NotebookApp]|ERROR|kernel died|restarting"
  = [Jupyter.error "kernel died"].
Proof.
  exact (proj1 (record_line_is_parsed
                  "[I 09:00:00 NotebookApp]" "ERROR" "kernel died|restarting"
                  eq_refl eq_refl)).
Defined.

(** X15.  The listener keeps nothing between chunks: when a line arrives
    cut in two chunks, both parts not blank, the logger is called twice,
    once for each part, where the whole line in one chunk gives one call. *)
Theorem line_cut_by_chunks_is_logged_twice (a b : string) :
  no_char "010" a = true ->
  no_char "010" b = true ->
  blank a = false ->
  blank b = false ->
  Jupyter.pipeOutput_on_data a ++ Jupyter.pipeOutput_on_data b
  = Jupyter.pipe_line a ++ Jupyter.pipe_line b
  /\ List.length (Jupyter.pipeOutput_on_data a ++ Jupyter.pipeOutput_on_data b) = 2
  /\ Jupyter.pipeOutput_on_data (a ++ b) = Jupyter.pipe_line (a ++ b)
  /\ List.length (Jupyter.pipeOutput_on_data (a ++ b)) = 1.
Proof.
  intros Ha Hb Hblank_a Hblank_b.
  assert (Hab : no_char "010" (a ++ b) = true)
    by (rewrite no_char_app, Ha, Hb; reflexivity).
  assert (Hblank_ab : blank (a ++ b) = false).
  { rewrite blank_allWhiteSpace, allWhiteSpace_app.
    rewrite <- (blank_allWhiteSpace a), Hblank_a. reflexivity. }
  rewrite (pipeOutput_one_line a Ha), (pipeOutput_one_line b Hb),
    (pipeOutput_one_line (a ++ b) Hab).
  repeat split.
  - rewrite List.length_app, !pipe_line_length, Hblank_a, Hblank_b. reflexivity.
  - rewrite pipe_line_length, Hblank_ab. reflexivity.
Qed.

Lemma line_cut_by_chunks_is_logged_twice_witness :
  Jupyter.pipeOutput_on_data "[I 1]|INFO|Serving note" ++ Jupyter.pipeOutput_on_data "books"
  = [Jupyter.info "Serving note"; Jupyter.warn "books"]
  /\ Jupyter.pipeOutput_on_data "[I 1]|INFO|Serving notebooks"
     = [Jupyter.info "Serving notebooks"].
Proof.
  destruct (line_cut_by_chunks_is_logged_twice
              "[I 1]|INFO|Serving note" "books" eq_refl eq_refl eq_refl eq_refl)
    as (Htwo & _ & Hone & _).
  split.
  - rewrite Htwo. reflexivity.
  - change "[I 1]|INFO|Serving notebooks"
      with ("[I 1]|INFO|Serving note" ++ "books")%string.
    rewrite Hone. reflexivity.
Defined.

(** ** The bind address and the response headers *)

Section LaunchFacts.

Import Jupyter.

Lemma span_not_quote_stop (v rest : string) :
  no_char quote v = true ->
  span_not_quote (v ++ String quote rest) = (v, String quote rest).
Proof.
  induction v as [|c v IH]; simpl; intros H.
  - reflexivity.
  - apply andb_prop in H as [Hc Hv]. apply negb_true_iff in Hc.
    rewrite Hc, (IH Hv). reflexivity.
Qed.

Lemma ip_match_here_flag (addr : string) :
  addr <> EmptyString -> no_char quote addr = true ->
  ip_match_here (ip_flag addr) = Some addr.
Proof.
  intros Hne Hq. unfold ip_match_here, ip_flag. simpl.
  rewrite (span_not_quote_stop addr EmptyString Hq).
  destruct addr; [contradiction | reflexivity].
Qed.

Lemma ip_match_flag (addr : string) :
  addr <> EmptyString -> no_char quote addr = true ->
  ip_match (ip_flag addr) = Some addr.
Proof.
  intros Hne Hq. pose proof (ip_match_here_flag addr Hne Hq) as H.
  unfold ip_flag in *. simpl in *. rewrite H. reflexivity.
Qed.

Lemma ip_match_here_needs_quote (s : string) :
  no_char quote s = true -> ip_match_here s = None.
Proof.
  intros H. unfold ip_match_here.
  destruct (ReverseProxy.strip ip_literal s) as [t|] eqn:E; [|reflexivity].
  apply strip_sound in E. subst s.
  rewrite no_char_app in H. discriminate.
Qed.

Lemma ip_match_needs_quote (s : string) :
  no_char quote s = true -> ip_match s = None.
Proof.
  induction s as [|c s IH]; intros H.
  - reflexivity.
  - pose proof (ip_match_here_needs_quote _ H) as Hhere.
    simpl in H. apply andb_prop in H as [_ Hs].
    simpl. simpl in Hhere. rewrite Hhere. exact (IH Hs).
Qed.

Lemma header_after_delete (name : string) (headers : Headers) :
  header name (delete_header name headers) = None.
Proof.
  induction headers as [|[n v] headers IH]; simpl; [reflexivity|].
  destruct (String.eqb n name) eqn:E; simpl; [exact IH|].
  rewrite E. exact IH.
Qed.

Lemma other_header_after_delete (name other : string) (headers : Headers) :
  other <> name ->
  header other (delete_header name headers) = header other headers.
Proof.
  intros Hother. induction headers as [|[n v] headers IH]; simpl; [reflexivity|].
  destruct (String.eqb n name) eqn:E; simpl.
  - apply String.eqb_eq in E. subst n.
    apply not_eq_sym in Hother. apply String.eqb_neq in Hother.
    rewrite Hother. exact IH.
  - rewrite IH. reflexivity.
Qed.

End LaunchFacts.

(** X16.  The address of the Jupyter server is taken from the first flag
    of the form [--ip=] followed by an address between double quotes, when
    no flag before it holds a double quote. *)
Theorem quoted_ip_flag_sets_address (before : list string) (addr : string)
        (after : list string) :
  forallb (no_char Jupyter.quote) before = true ->
  addr <> EmptyString ->
  no_char Jupyter.quote addr = true ->
  Jupyter.jupyterServerAddr (before ++ ip_flag addr :: after) = addr.
Proof.
  intros Hbefore Hne Hq.
  induction before as [|flag before IH]; cbn [app Jupyter.jupyterServerAddr].
  - rewrite (ip_match_flag addr Hne Hq). reflexivity.
  - simpl in Hbefore. apply andb_prop in Hbefore as [Hflag Hbefore].
    rewrite (ip_match_needs_quote flag Hflag). exact (IH Hbefore).
Qed.

Lemma quoted_ip_flag_sets_address_witness :
  Jupyter.jupyterServerAddr
    ["--no-browser"; "--port-retries=0"; ip_flag "0.0.0.0"; ip_flag "10.0.0.1"]
  = "0.0.0.0".
Proof.
  exact (quoted_ip_flag_sets_address
           ["--no-browser"; "--port-retries=0"] "0.0.0.0" [ip_flag "10.0.0.1"]
           eq_refl ltac:(discriminate) eq_refl).
Defined.

(** X17.  When no Jupyter argument holds a double quote, the address is
    localhost: an [--ip] flag whose value is not between double quotes is
    not taken into account. *)
Theorem unquoted_ip_flag_is_ignored (jupyterArgs : list string) :
  forallb (no_char Jupyter.quote) jupyterArgs = true ->
  Jupyter.jupyterServerAddr jupyterArgs = "localhost".
Proof.
  induction jupyterArgs as [|flag flags IH]; simpl; intros H; [reflexivity|].
  apply andb_prop in H as [Hflag Hflags].
  rewrite (ip_match_needs_quote flag Hflag). exact (IH Hflags).
Qed.

Lemma unquoted_ip_flag_is_ignored_witness :
  Jupyter.jupyterServerAddr ["--ip=0.0.0.0"; "--no-browser"] = "localhost".
Proof.
  exact (unquoted_ip_flag_is_ignored ["--ip=0.0.0.0"; "--no-browser"] eq_refl).
Defined.

(** X18.  After [responseHandler] the proxied response has no
    [access-control-allow-origin] header, whatever value it had, and every
    other header is as it was. *)
Theorem responseHandler_drops_allow_origin (headers : Jupyter.Headers) :
  Jupyter.header "access-control-allow-origin" (Jupyter.responseHandler headers) = None
  /\ forall name,
      name <> "access-control-allow-origin" ->
      Jupyter.header name (Jupyter.responseHandler headers)
      = Jupyter.header name headers.
Proof.
  unfold Jupyter.responseHandler.
  destruct (Jupyter.header "access-control-allow-origin" headers) eqn:E.
  - split; [apply header_after_delete|].
    intros name Hname. apply other_header_after_delete, Hname.
  - split; [exact E | reflexivity].
Qed.

(** ** More on the kernel socket bridge *)

(** X19.  [stop] closes the socket the session holds, once, and leaves the
    session without a socket; with no socket held it closes nothing and
    leaves the session as it is, so a second [stop], or the disconnect of
    the client after a [stop], closes nothing. *)
Theorem stop_closes_held_socket_once (session : Sockets.Session) :
  Sockets.webSocket (fst (Sockets.on_stop session)) = None
  /\ (forall ws,
         Sockets.webSocket session = Some ws ->
         snd (Sockets.on_stop session)
         = [Sockets.LogDebug "Stop in session %d with url %s"; Sockets.WsClose ws])
  /\ (Sockets.webSocket session = None ->
      Sockets.on_stop session
      = (session, [Sockets.LogDebug "Stop in session %d with url %s"]))
  /\ existsb is_ws_close (snd (Sockets.on_stop (fst (Sockets.on_stop session)))) = false
  /\ existsb is_ws_close (snd (Sockets.on_disconnect (fst (Sockets.on_stop session))))
     = false.
Proof.
  unfold Sockets.on_stop, Sockets.on_disconnect, Sockets.closeWebSocket.
  destruct (Sockets.webSocket session) as [ws|] eqn:E; simpl.
  - repeat split.
    + intros ws' [= <-]. reflexivity.
    + discriminate.
  - rewrite E. simpl. repeat split. discriminate.
Qed.


(** ** More on the terminal bridge *)

Section PtyCounting.

Import SocketIoToPty.

Lemma run_app_pty (a b : list Event) (session : Session) :
  run (a ++ b) session
  = (fst (run b (fst (run a session))),
     snd (run a session) ++ snd (run b (fst (run a session)))).
Proof.
  revert session. induction a as [|e a IH]; intros session.
  - simpl. destruct (run b session). reflexivity.
  - change ((e :: a) ++ b) with (e :: (a ++ b)).
    rewrite !run_cons, IH. reflexivity.
Qed.

Lemma chunks_cons (e : Event) (events : list Event) :
  chunks (e :: events)
  = ((match e with Chunk _ => 1 | Ack => 0 end) + chunks events)%Z.
Proof. unfold chunks. destruct e; cbn [filter List.length]; lia. Qed.

Lemma acks_cons (e : Event) (events : list Event) :
  acks (e :: events)
  = ((match e with Chunk _ => 0 | Ack => 1 end) + acks events)%Z.
Proof. unfold acks. destruct e; cbn [filter List.length]; lia. Qed.

Lemma count_bounds (events : list Event) :
  forall session (credit : nat),
    unackedCount session = Z.of_nat credit ->
    (Z.of_nat credit + chunks events - acks events
     <= unackedCount (fst (run events session)))%Z
    /\ (balanced events credit = true ->
        unackedCount (fst (run events session))
        = (Z.of_nat credit + chunks events - acks events)%Z).
Proof.
  induction events as [|e events IH]; intros session credit Hcount.
  - simpl. unfold chunks, acks. simpl. lia.
  - rewrite run_cons, chunks_cons, acks_cons. cbn [fst].
    destruct e as [d|].
    + destruct (IH (fst (step session (Chunk d))) (S credit)) as [Hle Heq].
      { simpl. rewrite Hcount. lia. }
      split; [lia|]. simpl balanced. intros Hb. rewrite (Heq Hb). lia.
    + destruct credit as [|credit].
      * destruct (IH (fst (step session Ack)) 0) as [Hle _].
        { simpl. rewrite Hcount. reflexivity. }
        split; [lia | discriminate].
      * destruct (IH (fst (step session Ack)) credit) as [Hle Heq].
        { simpl. rewrite Hcount. lia. }
        split; [lia|]. simpl balanced. intros Hb. rewrite (Heq Hb). lia.
Qed.

(** Acknowledgments in a row: the count goes down to 0 and stays there,
    and an acknowledgment resumes the terminal when the count it leaves is
    below 2. *)
Lemma run_acks (start : nat) (n : nat) :
  forall session (done : nat),
    unackedCount session = Z.of_nat (start - done) ->
    unackedCount (fst (run (repeat Ack n) session)) = Z.of_nat (start - (done + n))
    /\ map (existsb is_resume) (snd (run (repeat Ack n) session))
       = map (fun k => Nat.ltb (start - k) 2) (seq (S done) n).
Proof.
  induction n as [|n IH]; intros session done Hcount.
  - simpl. rewrite Nat.add_0_r. split; [exact Hcount | reflexivity].
  - change (repeat Ack (S n)) with (Ack :: repeat Ack n).
    rewrite run_cons.
    assert (Hnext : unackedCount (fst (step session Ack)) = Z.of_nat (start - S done)).
    { simpl. rewrite Hcount. lia. }
    destruct (IH (fst (step session Ack)) (S done) Hnext) as [Hfinal Hflags].
    split.
    + cbn [fst snd]. rewrite Hfinal. f_equal. lia.
    + cbn [fst snd map seq]. rewrite Hflags. f_equal.
      simpl. rewrite Hcount. unfold UNACKED_LOW_WATER.
      destruct (Z.ltb_spec (Z.max 0 (Z.of_nat (start - done) - 1)) 2),
               (Nat.ltb_spec (start - S done) 2);
        simpl; try reflexivity; lia.
Qed.

End PtyCounting.

(** X21.  The count of a terminal session is never below the chunks minus
    the acknowledgments it has seen: an acknowledgment that comes with
    nothing to acknowledge is forgotten and gives no credit against later
    chunks.  When no acknowledgment comes without a chunk before it, the
    count is the chunks minus the acknowledgments. *)
Theorem count_is_chunks_minus_acks
        (counter : N) (events : list SocketIoToPty.Event) :
  (chunks events - acks events
   <= SocketIoToPty.unackedCount
        (fst (SocketIoToPty.run events (SocketIoToPty.new_session counter))))%Z
  /\ (balanced events 0 = true ->
      SocketIoToPty.unackedCount
        (fst (SocketIoToPty.run events (SocketIoToPty.new_session counter)))
      = (chunks events - acks events)%Z).
Proof.
  destruct (count_bounds events (SocketIoToPty.new_session counter) 0 eq_refl)
    as [Hle Heq].
  split; [lia|]. intros Hb. rewrite (Heq Hb). lia.
Qed.

(** X22.  After [m] chunks without an acknowledgment, [n] acknowledgments
    in a row bring the count to [m - n], or to 0 when there are more
    acknowledgments than chunks, and the [k]-th of them resumes the
    terminal exactly when [m - k] is below 2: a terminal paused at 21
    unacknowledged chunks is resumed by the 20th acknowledgment and by
    none before. *)
Theorem burst_then_drain (counter : N) (chunk : string) (m n : nat) :
  SocketIoToPty.unackedCount
    (fst (SocketIoToPty.run
            (repeat (SocketIoToPty.Chunk chunk) m ++ repeat SocketIoToPty.Ack n)
            (SocketIoToPty.new_session counter)))
  = Z.of_nat (m - n)
  /\ map (existsb SocketIoToPty.is_resume)
         (skipn m
                (snd (SocketIoToPty.run
                        (repeat (SocketIoToPty.Chunk chunk) m
                                ++ repeat SocketIoToPty.Ack n)
                        (SocketIoToPty.new_session counter))))
     = map (fun k => Nat.ltb (m - k) 2) (seq 1 n).
Proof.
  rewrite run_app_pty. cbn [fst snd].
  destruct (run_chunks chunk m (SocketIoToPty.new_session counter) 0 eq_refl)
    as [Hcount Hpauses].
  assert (Hlen : List.length
                   (snd (SocketIoToPty.run (repeat (SocketIoToPty.Chunk chunk) m)
                                           (SocketIoToPty.new_session counter))) = m).
  { apply (f_equal (@List.length bool)) in Hpauses.
    rewrite !List.length_map, List.length_seq in Hpauses. exact Hpauses. }
  destruct (run_acks m n
              (fst (SocketIoToPty.run (repeat (SocketIoToPty.Chunk chunk) m)
                                      (SocketIoToPty.new_session counter))) 0)
    as [Hfinal Hflags].
  { rewrite Hcount. f_equal. lia. }
  split; [exact Hfinal|].
  rewrite List.skipn_app, Hlen, Nat.sub_diag.
  rewrite List.skipn_all2 by (rewrite Hlen; apply le_n).
  exact Hflags.
Qed.

(** ** The request the reverse proxy sends *)

Section OutgoingPath.

Import HttpProxy.

Lemma split_slash_first (u : string) :
  split "?" (String "/" u)
  = match split "?" u with
    | [] => [String "/" EmptyString]
    | piece :: pieces => String "/" piece :: pieces
    end.
Proof. reflexivity. Qed.

Lemma collapse_two_slashes (s : string) :
  collapse_slashes (String "/" (String "/" s)) = collapse_slashes (String "/" s).
Proof. reflexivity. Qed.

(** A slash in front of the URL does not change the path that is sent. *)
Lemma urlJoin_leading_slash (u : string) :
  urlJoin "/" u = urlJoin "/" (String "/" u).
Proof.
  unfold urlJoin. rewrite split_slash_first.
  destruct (split_cons "?" u) as (piece & pieces & ->).
  cbn [filter String.eqb negb].
  change (String.eqb "/" EmptyString) with false. cbn [negb].
  destruct piece as [|c piece].
  - reflexivity.
  - change (String.eqb (String c piece) EmptyString) with false.
    change (String.eqb (String "/" (String c piece)) EmptyString) with false.
    cbn [negb join].
    change ("/" ++ "/" ++ String "/" (String c piece))%string
      with (String "/" (String "/" (String "/" (String c piece)))).
    change ("/" ++ "/" ++ String c piece)%string
      with (String "/" (String "/" (String c piece))).
    rewrite !collapse_two_slashes. reflexivity.
Qed.

Lemma collapse_step (c c' : ascii) (s : string) :
  collapse_slashes (String c (String c' s))
  = if Ascii.eqb c "/" && Ascii.eqb c' "/"
    then collapse_slashes (String c' s)
    else String c (collapse_slashes (String c' s)).
Proof. simpl. destruct (Ascii.eqb c "/"), (Ascii.eqb c' "/"); reflexivity. Qed.

Lemma no_slash_pair_step (c c' : ascii) (s : string) :
  no_slash_pair (String c (String c' s))
  = negb (Ascii.eqb c "/" && Ascii.eqb c' "/") && no_slash_pair (String c' s).
Proof. reflexivity. Qed.

Lemma collapse_without_pair (s : string) :
  no_slash_pair s = true -> collapse_slashes s = s.
Proof.
  induction s as [|c s IH]; intros H; [reflexivity|].
  destruct s as [|c' s].
  - simpl. destruct (Ascii.eqb c "/"); reflexivity.
  - rewrite no_slash_pair_step in H. apply andb_prop in H as [Hpair Hrest].
    apply negb_true_iff in Hpair.
    rewrite collapse_step, Hpair, (IH Hrest). reflexivity.
Qed.

Lemma strip_needs_colon (scheme behind s : string) :
  no_char ":" s = true ->
  ReverseProxy.strip (scheme ++ String ":" behind) s = None.
Proof.
  intros H.
  destruct (ReverseProxy.strip (scheme ++ String ":" behind) s) as [t|] eqn:E;
    [|reflexivity].
  apply strip_sound in E. subst s.
  rewrite !no_char_app in H. simpl in H.
  rewrite andb_false_r in H. discriminate.
Qed.

Lemma replace_first_without_colon (scheme behind replacement s : string) :
  no_char ":" s = true ->
  replace_first (scheme ++ String ":" behind) replacement s = s.
Proof.
  induction s as [|c s IH]; intros H.
  - simpl. rewrite (strip_needs_colon scheme behind EmptyString eq_refl). reflexivity.
  - cbn [replace_first]. rewrite (strip_needs_colon _ _ _ H).
    simpl in H. apply andb_prop in H as [_ Hs]. f_equal. exact (IH Hs).
Qed.

Lemma join_cons (sep piece next : string) (pieces : list string) :
  join sep (piece :: next :: pieces)
  = (piece ++ sep ++ join sep (next :: pieces))%string.
Proof. reflexivity. Qed.

Lemma join_split (q : string) : join "?" (split "?" q) = q.
Proof.
  induction q as [|c q IH]; [reflexivity|].
  destruct (split_cons "?" q) as (piece & pieces & E).
  rewrite E in IH. simpl split. rewrite E.
  destruct (Ascii.eqb_spec c "?") as [->|Hc].
  - rewrite join_cons, IH. reflexivity.
  - destruct pieces as [|next pieces].
    + simpl in IH. subst q. reflexivity.
    + rewrite join_cons. rewrite join_cons in IH. rewrite <- IH. reflexivity.
Qed.

(** The path sent for a URL that needs no normalisation: the URL with a
    slash in front. *)
Lemma urlJoin_plain (rest query : string) :
  no_slash_pair (String "/" rest) = true ->
  no_char ":" rest = true ->
  no_char "?" rest = true ->
  query = EmptyString \/ (exists q, query = String "?" q) ->
  urlJoin "/" (rest ++ query) = String "/" (rest ++ query).
Proof.
  intros Hpair Hcolon Hmark Hquery.
  assert (Hnorm :
            replace_first "https:/" "https://"
              (replace_first "http:/" "http://"
                 (collapse_slashes
                    (join "/" (filter (fun arg => negb (String.eqb arg EmptyString))
                                      ["/"; rest]))))
            = String "/" rest).
  { assert (Hslash : no_char ":" (String "/" rest) = true) by exact Hcolon.
    destruct rest as [|c rest].
    - reflexivity.
    - cbn [filter]. change (String.eqb "/" EmptyString) with false.
      change (String.eqb (String c rest) EmptyString) with false.
      cbn [negb join].
      change ("/" ++ "/" ++ String c rest)%string
        with (String "/" (String "/" (String c rest))).
      rewrite collapse_two_slashes, (collapse_without_pair _ Hpair).
      pose proof (replace_first_without_colon "http" "/" "http://" _ Hslash) as H1.
      pose proof (replace_first_without_colon "https" "/" "https://" _ Hslash) as H2.
      change ("http" ++ String ":" "/")%string with "http:/" in H1.
      change ("https" ++ String ":" "/")%string with "https:/" in H2.
      rewrite H1. exact H2. }
  unfold urlJoin.
  destruct Hquery as [-> | [q ->]].
  - rewrite append_nil_r, (split_no_sep _ _ Hmark), Hnorm. reflexivity.
  - rewrite split_app_sep, (split_no_sep _ _ Hmark). cbn [app].
    rewrite Hnorm.
    destruct (split_cons "?" q) as (piece & pieces & E).
    pose proof (join_split q) as Hq. rewrite E in *.
    rewrite join_cons, Hq. reflexivity.
Qed.

End OutgoingPath.

(** C2, as amended.  Take a request in origin form: its URL is a path
    [/_proxy/<ds>/<rest>] followed by what [url.parse] does not count to
    the pathname (nothing, or a query), the digits denote a port other
    than 0 and other than the listening port, and the proxy reads
    [<rest><query>] as a path and query as they stand.  Then
    [getRequestPort] of the path is that port; the router hands the
    request to the proxy with the target [http://localhost:<port>] and the
    URL [<rest><query>]; the path the proxy sends to the target is what its
    join gives for [/<rest><query>], and that is [/<rest><query>] itself,
    the path with the segment [/_proxy/<ds>] removed, when [<rest>] holds
    no empty segment, no colon and no question mark. *)
Theorem reverse_proxy_forwards_without_segment
        (pathname url_path : string -> string) (settings : AppSettings.t)
        (jupyter : Jupyter.State) (ds rest query : string) (listening : N) :
  ds <> EmptyString ->
  allDigits ds = true ->
  (Number ds <= 65535)%N ->
  Number ds <> 0%N ->
  Number ds <> listening ->
  pathname (proxy_path ds (rest ++ query)) = proxy_path ds rest ->
  url_path (rest ++ query)%string = (rest ++ query)%string ->
  ReverseProxy.getRequestPort (proxy_path ds rest) = Number ds
  /\ Server.uncheckedRequestHandler
       pathname (Server.socketIoHandlers settings) jupyter
       {| Server.url := proxy_path ds (rest ++ query); Server.localPort := listening |}
     = Normal (ReverseProxyWeb
                 {| ReverseProxy.request_url := rest ++ query;
                    ReverseProxy.target :=
                      "http://localhost:" ++ toString (Number ds) |})
  /\ HttpProxy.outgoing_path url_path (rest ++ query)
     = HttpProxy.urlJoin "/" (String "/" (rest ++ query))
  /\ (no_slash_pair (String "/" rest) = true ->
      no_char ":" rest = true ->
      no_char "?" rest = true ->
      query = EmptyString \/ (exists q, query = String "?" q) ->
      HttpProxy.outgoing_path url_path (rest ++ query)
      = String "/" (rest ++ query)).
Proof.
  intros Hne Hds _ Hnz Hself Hpath Hparse.
  split; [apply getRequestPort_marker; assumption|].
  split.
  - unfold Server.uncheckedRequestHandler. cbn [Server.url Server.localPort].
    rewrite Hpath, run_handlers_skip_proxy_path, proxy_path_not_socketio.
    rewrite (getRequestPort_marker ds rest Hne Hds).
    apply N.eqb_neq in Hnz. apply N.eqb_neq in Hself.
    rewrite Hnz, Hself. cbn [negb andb].
    unfold ReverseProxy.handleRequest.
    rewrite (replace_regex_marker ds (rest ++ query) Hne Hds). reflexivity.
  - unfold HttpProxy.outgoing_path. rewrite Hparse. split.
    + apply urlJoin_leading_slash.
    + apply urlJoin_plain.
Qed.

Lemma reverse_proxy_forwards_without_segment_witness :
  ReverseProxy.getRequestPort "/_proxy/8080/foo" = 8080%N
  /\ Server.uncheckedRequestHandler
       origin_pathname (Server.socketIoHandlers sample_settings) None
       {| Server.url := "/_proxy/8080/foo"; Server.localPort := 8081 |}
     = Normal (ReverseProxyWeb
                 {| ReverseProxy.request_url := "foo";
                    ReverseProxy.target := "http://localhost:8080" |})
  /\ HttpProxy.outgoing_path target_path "foo" = "/foo".
Proof.
  destruct (reverse_proxy_forwards_without_segment
              origin_pathname target_path sample_settings None
              "8080" "foo" EmptyString 8081%N
              ltac:(discriminate) eq_refl ltac:(vm_compute; discriminate)
              ltac:(discriminate) ltac:(discriminate) eq_refl eq_refl)
    as (Hport & Hroute & _ & Hpath).
  split; [exact Hport|]. split; [exact Hroute|].
  exact (Hpath eq_refl eq_refl eq_refl (or_introl eq_refl)).
Defined.

(** C2 as stated fails for a request in absolute form.  The path of
    [http://h/_proxy/8080/foo] is [/_proxy/8080/foo] and names the port
    8080, so on a server that listens on 8081 the request goes to the
    reverse proxy; the segment is cut out of the whole URL, which becomes
    [http://hfoo], and the path the proxy sends to [http://localhost:8080]
    is [/], not [/foo]. *)
Lemma absolute_form_request_loses_its_path :
  target_pathname "http://h/_proxy/8080/foo" = proxy_path "8080" "foo"
  /\ ReverseProxy.getRequestPort (target_pathname "http://h/_proxy/8080/foo") = 8080%N
  /\ Server.uncheckedRequestHandler
       target_pathname (Server.socketIoHandlers sample_settings) None
       {| Server.url := "http://h/_proxy/8080/foo"; Server.localPort := 8081 |}
     = Normal (ReverseProxyWeb
                 {| ReverseProxy.request_url := "http://hfoo";
                    ReverseProxy.target := "http://localhost:8080" |})
  /\ HttpProxy.outgoing_path target_path "http://hfoo" = "/"
  /\ HttpProxy.outgoing_path target_path "http://hfoo" <> "/foo".
Proof. repeat split. discriminate. Qed.
